(** * AdamWeightDecayOptimizer (src/optimizer.py)

    A shallow embedding of the Adam optimizer with decoupled weight decay
    and of the part of its framework base class that it calls, followed
    by the properties of the update rule, the accumulator slots and the
    weight-decay exclusion policy. *)

From Stdlib Require Import String Ascii List Bool ZArith QArith Qreals.
From Stdlib Require Import Reals Lra SpecFloat.
From stdpp Require Import gmap strings.

Local Open Scope string_scope.
Local Open Scope list_scope.

(** ** Exceptions

    Python code fails by raising; a call either returns a value or
    raises one of the exceptions below. *)

Inductive exn : Type :=
| AttributeError   (** attribute lookup on an object failed *)
| ValueError       (** a framework call rejected its argument *)
| TypeError        (** a value was used at the wrong type *)
| ReError          (** [re.error]: the pattern does not compile *)
| ReUnsupported.   (** the pattern is outside the embedded fragment of [re] *)

Inductive result (A : Type) : Type :=
| Ok (a : A)
| Raise (e : exn).

Arguments Ok {A} a.
Arguments Raise {A} e.

#[global] Instance result_ret : MRet result := fun A a => Ok a.

#[global] Instance result_bind : MBind result := fun A B k r =>
  match r with
  | Ok a => k a
  | Raise e => Raise e
  end.

Definition is_ok {A : Type} (r : result A) : bool :=
  match r with Ok _ => true | Raise _ => false end.

(** ** The module [re], on the pattern fragment the optimizer is used with

    Patterns are strings.  The embedded fragment has ordinary characters,
    [.], the anchors [^] and [$], and a backslash before a punctuation
    character.  Repetition, alternation, groups, classes and the
    alphanumeric escapes are outside it: compiling such a pattern gives
    [ReUnsupported].  No flags are passed by the optimizer, so [.] does
    not match a newline, [^] matches only at the start of the string and
    [$] at its end or before a newline that ends it. *)

Module re.

Inductive token : Type :=
| Lit (c : ascii)
| Dot
| Caret
| Dollar.

Definition newline : ascii := "010"%char.

Definition is_alnum (c : ascii) : bool :=
  let n := nat_of_ascii c in
  (((48 <=? n) && (n <=? 57)) || ((65 <=? n) && (n <=? 90))
   || ((97 <=? n) && (n <=? 122)))%nat.

(** The characters with a meaning of their own in a pattern. *)
Definition is_special (c : ascii) : bool :=
  existsb (Ascii.eqb c)
    ("*" :: "+" :: "?" :: "{" :: "}" :: "[" :: "]" :: "|" :: "(" :: ")"
         :: nil)%char.

(** An ordinary character: it stands for itself in a pattern. *)
Definition is_ordinary (c : ascii) : bool :=
  negb (Ascii.eqb c "\"%char || Ascii.eqb c "."%char
        || Ascii.eqb c "^"%char || Ascii.eqb c "$"%char || is_special c).

Fixpoint compile_chars (p : list ascii) : result (list token) :=
  match p with
  | nil => Ok nil
  | c :: rest =>
      if Ascii.eqb c "\"%char then
        match rest with
        | nil => Raise ReError
        | d :: rest' =>
            if is_alnum d then Raise ReUnsupported
            else ts ← compile_chars rest'; Ok (Lit d :: ts)
        end
      else if Ascii.eqb c "."%char then
        ts ← compile_chars rest; Ok (Dot :: ts)
      else if Ascii.eqb c "^"%char then
        ts ← compile_chars rest; Ok (Caret :: ts)
      else if Ascii.eqb c "$"%char then
        ts ← compile_chars rest; Ok (Dollar :: ts)
      else if is_special c then Raise ReUnsupported
      else ts ← compile_chars rest; Ok (Lit c :: ts)
  end.

Definition compile (pattern : string) : result (list token) :=
  compile_chars (list_ascii_of_string pattern).

(** [match_here ts at_start s]: the tokens match a prefix of [s];
    [at_start] says whether [s] is the whole subject string. *)
Fixpoint match_here (ts : list token) (at_start : bool) (s : list ascii)
  : bool :=
  match ts with
  | nil => true
  | Lit c :: ts' =>
      match s with
      | x :: s' => Ascii.eqb c x && match_here ts' false s'
      | nil => false
      end
  | Dot :: ts' =>
      match s with
      | x :: s' => negb (Ascii.eqb x newline) && match_here ts' false s'
      | nil => false
      end
  | Caret :: ts' => at_start && match_here ts' at_start s
  | Dollar :: ts' =>
      match s with
      | nil => match_here ts' at_start s
      | x :: nil => Ascii.eqb x newline && match_here ts' at_start s
      | _ => false
      end
  end.

(** Scan the subject for the first position where the tokens match. *)
Fixpoint search_from (ts : list token) (at_start : bool) (s : list ascii)
  : bool :=
  match_here ts at_start s
  || match s with
     | nil => false
     | _ :: s' => search_from ts false s'
     end.

(** [search pattern string] is [Ok true] when [re.search] returns a
    match object and [Ok false] when it returns [None]. *)
Definition search (pattern : string) (subject : string) : result bool :=
  ts ← compile pattern;
  Ok (search_from ts true (list_ascii_of_string subject)).

End re.

(** ** Tensors

    The optimizer computes with framework tensors through a handful of
    operations.  They are kept abstract: everything proved over
    [TensorOps] holds for whatever arithmetic the framework runs,
    rounding included.  Two instances follow further down: the
    floating-point numbers the framework computes with, and the real
    numbers, an idealisation on which the update rule is run on
    examples. *)

Inductive DType : Type :=
| float32
| float64
| float32_ref
| float64_ref.

(** [dtype.base_dtype]: the element type of a reference type. *)
Definition base_dtype (d : DType) : DType :=
  match d with
  | float32 | float32_ref => float32
  | float64 | float64_ref => float64
  end.

Class TensorOps (T : Type) : Type := {
  tf_constant : Q -> T;              (** a Python float as a tensor *)
  tf_int : Z -> T;                   (** a Python integer as a tensor *)
  tf_zeros : list nat -> DType -> T; (** zeros of a shape and type *)
  tf_cast : T -> DType -> T;         (** [math_ops.cast] *)
  tf_multiply : T -> T -> T;         (** [tf.multiply], [*] *)
  tf_add : T -> T -> T;              (** [+] *)
  tf_subtract : T -> T -> T;         (** [-] *)
  tf_truediv : T -> T -> T;          (** [/] *)
  tf_sqrt : T -> T;                  (** [tf.sqrt] *)
  tf_square : T -> T                 (** [tf.square] *)
}.

(** ** Python values held by the hyperparameter attributes *)

Inductive pyval (T : Type) : Type :=
| PyNone
| PyBool (b : bool)
| PyInt (z : Z)
| PyFloat (q : Q)      (** a finite float, as the rational it denotes *)
| PyTensor (t : T).

Arguments PyNone {T}.
Arguments PyBool {T} b.
Arguments PyInt {T} z.
Arguments PyFloat {T} q.
Arguments PyTensor {T} t.

(** Truth value of a Python value, as [not x] and [if x:] test it.  A
    graph tensor refuses to be used as a Python boolean. *)
Definition truthy {T : Type} (x : pyval T) : result bool :=
  match x with
  | PyNone => Ok false
  | PyBool b => Ok b
  | PyInt z => Ok (negb (Z.eqb z 0))
  | PyFloat q => Ok (negb (Qeq_bool q 0))
  | PyTensor _ => Raise TypeError
  end.

(** The integers that fit a 64-bit integer tensor. *)
Definition fits_int64 (z : Z) : bool :=
  ((- 2 ^ 63 <=? z) && (z <? 2 ^ 63))%Z.

(** [ops.convert_to_tensor]: numbers become constants, a tensor is
    returned as it is, [None] is rejected, and so is an integer too
    large for an integer tensor. *)
Definition convert_to_tensor {T : Type} `{TensorOps T} (x : pyval T)
  : result T :=
  match x with
  | PyNone => Raise ValueError
  | PyBool b => Ok (tf_constant (if b then 1 else 0)%Q)
  | PyInt z => if fits_int64 z then Ok (tf_int z) else Raise TypeError
  | PyFloat q => Ok (tf_constant q)
  | PyTensor t => Ok t
  end.

(** An argument of a tensor operation that may be [None]: the operation
    rejects [None]. *)
Definition tensor_arg {T : Type} (x : option T) : result T :=
  match x with
  | Some t => Ok t
  | None => Raise ValueError
  end.

(** Reading an attribute that is bound only once some method has run. *)
Definition getattr {A : Type} (x : option A) : result A :=
  match x with
  | Some a => Ok a
  | None => Raise AttributeError
  end.

(** ** Variables and the optimizer object *)

Section Optimizer.

Context {T : Type} `{TensorOps T}.

(** A trainable variable: its name, element type, shape and current
    value.  [assign] replaces the value. *)
Record variable : Type := {
  name : string;
  dtype : DType;
  shape : list nat;
  value : T
}.

Definition assign (var : variable) (x : T) : variable :=
  {| name := name var; dtype := dtype var; shape := shape var;
     value := x |}.

(** The attributes of an [AdamWeightDecayOptimizer]: those the base
    class constructor binds ([_use_locking], [_name], [_slots]), those
    [__init__] binds, and those [_prepare] binds ([None] before it has
    run).  [_slots] maps a slot name and a variable key to the current
    value of that slot variable. *)
Record AdamWeightDecayOptimizer : Type := {
  _use_locking : bool;
  _name : string;
  _slots : gmap (string * string) T;
  learning_rate : pyval T;
  weight_decay_rate : pyval T;
  beta_1 : pyval T;
  beta_2 : pyval T;
  epsilon : pyval T;
  exclude_from_weight_decay : option (list string);
  learning_rate_t : option T;
  weight_decay_rate_t : option T;
  beta_1_t : option T;
  beta_2_t : option T;
  epsilon_t : option T
}.

Definition set_slots (self : AdamWeightDecayOptimizer)
    (slots : gmap (string * string) T) : AdamWeightDecayOptimizer :=
  {| _use_locking := _use_locking self;
     _name := _name self;
     _slots := slots;
     learning_rate := learning_rate self;
     weight_decay_rate := weight_decay_rate self;
     beta_1 := beta_1 self;
     beta_2 := beta_2 self;
     epsilon := epsilon self;
     exclude_from_weight_decay := exclude_from_weight_decay self;
     learning_rate_t := learning_rate_t self;
     weight_decay_rate_t := weight_decay_rate_t self;
     beta_1_t := beta_1_t self;
     beta_2_t := beta_2_t self;
     epsilon_t := epsilon_t self |}.

(** *** The framework base class [optimizer.Optimizer]

    The methods of the base class that optimizer.py calls, as the
    framework defines them. *)

(** The key of a variable in the slot dictionaries. *)
Definition _var_key (var : variable) : string := name var.

(** [Optimizer.__init__(use_locking, name)] refuses an empty name and
    starts with no slots. *)
Definition Optimizer_init (use_locking : bool) (name : string)
  : result (bool * string * gmap (string * string) T) :=
  if String.eqb name "" then Raise ValueError
  else Ok (use_locking, name, ∅).

(** [get_slot(var, name)]: the slot of that name made for [var], or
    [None]. *)
Definition get_slot (self : AdamWeightDecayOptimizer) (var : variable)
    (slot_name : string) : option T :=
  _slots self !! (slot_name, _var_key var).

(** [_zeros_slot(var, slot_name, op_name)]: find the slot, or make it,
    filled with zeros of the shape and type of [var], when there is
    none yet. *)
Definition _zeros_slot (self : AdamWeightDecayOptimizer) (var : variable)
    (slot_name op_name : string) : AdamWeightDecayOptimizer :=
  match _slots self !! (slot_name, _var_key var) with
  | Some _ => self
  | None =>
      set_slots self
        (<[(slot_name, _var_key var) :=
             tf_zeros (shape var) (base_dtype (dtype var))]> (_slots self))
  end.

(** *** The class body of optimizer.py *)

Definition __init__ (learning_rate weight_decay_rate beta_1 beta_2
    epsilon : pyval T) (exclude_from_weight_decay : option (list string))
    (name : string) : result AdamWeightDecayOptimizer :=
  '(use_locking, name, slots) ← Optimizer_init false name;
  Ok {| _use_locking := use_locking;
        _name := name;
        _slots := slots;
        learning_rate := learning_rate;
        weight_decay_rate := weight_decay_rate;
        beta_1 := beta_1;
        beta_2 := beta_2;
        epsilon := epsilon;
        exclude_from_weight_decay := exclude_from_weight_decay;
        learning_rate_t := None;
        weight_decay_rate_t := None;
        beta_1_t := None;
        beta_2_t := None;
        epsilon_t := None |}.

Definition _prepare (self : AdamWeightDecayOptimizer)
  : result AdamWeightDecayOptimizer :=
  lr ← convert_to_tensor (learning_rate self);
  wd ← convert_to_tensor (weight_decay_rate self);
  b1 ← convert_to_tensor (beta_1 self);
  b2 ← convert_to_tensor (beta_2 self);
  eps ← convert_to_tensor (epsilon self);
  Ok {| _use_locking := _use_locking self;
        _name := _name self;
        _slots := _slots self;
        learning_rate := learning_rate self;
        weight_decay_rate := weight_decay_rate self;
        beta_1 := beta_1 self;
        beta_2 := beta_2 self;
        epsilon := epsilon self;
        exclude_from_weight_decay := exclude_from_weight_decay self;
        learning_rate_t := Some lr;
        weight_decay_rate_t := Some wd;
        beta_1_t := Some b1;
        beta_2_t := Some b2;
        epsilon_t := Some eps |}.

Definition _create_slots (self : AdamWeightDecayOptimizer)
    (var_list : list variable) : AdamWeightDecayOptimizer :=
  fold_left
    (fun self v =>
       let self := _zeros_slot self v "m" (_name self) in
       _zeros_slot self v "v" (_name self))
    var_list self.

(** The loop of [_do_use_weight_decay] over the exclusion patterns:
    [Ok false] when a pattern is found in the name and the method
    returns [False] from inside the loop, [Ok true] when the loop runs
    to its end. *)
Fixpoint no_pattern_found (patterns : list string) (param_name : string)
  : result bool :=
  match patterns with
  | nil => Ok true
  | r :: rest =>
      found ← re.search r param_name;
      if found : bool then Ok false else no_pattern_found rest param_name
  end.

Definition _do_use_weight_decay (self : AdamWeightDecayOptimizer)
    (param_name : string) : result bool :=
  rate ← truthy (weight_decay_rate self);
  if negb rate then Ok false
  else
    match exclude_from_weight_decay self with
    | Some (r :: rest) => no_pattern_found (r :: rest) param_name
    | Some nil | None => Ok true
    end.

(** [self._get_variable_name] is looked up on the object when
    [_apply_dense] runs.  The lookup is an argument here: [None] when
    it finds nothing, [Some f] when it finds a method [f]. *)
Definition _apply_dense
    (_get_variable_name : option (variable -> result string))
    (self : AdamWeightDecayOptimizer) (grad : T) (var : variable)
  : result (AdamWeightDecayOptimizer * variable) :=
  lr ← getattr (learning_rate_t self);
  let learning_rate_t := tf_cast lr (base_dtype (dtype var)) in
  b1 ← getattr (beta_1_t self);
  let beta_1_t := tf_cast b1 (base_dtype (dtype var)) in
  b2 ← getattr (beta_2_t self);
  let beta_2_t := tf_cast b2 (base_dtype (dtype var)) in
  eps ← getattr (epsilon_t self);
  let epsilon_t := tf_cast eps (base_dtype (dtype var)) in
  wd ← getattr (weight_decay_rate_t self);
  let weight_decay_rate_t := tf_cast wd (base_dtype (dtype var)) in
  let m := get_slot self var "m" in
  let v := get_slot self var "v" in
  m_value ← tensor_arg m;
  let next_m :=
    tf_add (tf_multiply beta_1_t m_value)
           (tf_multiply (tf_subtract (tf_constant 1) beta_1_t) grad) in
  v_value ← tensor_arg v;
  let next_v :=
    tf_add (tf_multiply beta_2_t v_value)
           (tf_multiply (tf_subtract (tf_constant 1) beta_2_t)
                        (tf_square grad)) in
  let update := tf_truediv next_m (tf_add (tf_sqrt next_v) epsilon_t) in
  method ← getattr _get_variable_name;
  param_name ← method var;
  decay ← _do_use_weight_decay self param_name;
  let update :=
    if decay : bool
    then tf_add update (tf_multiply weight_decay_rate_t (value var))
    else update in
  let update_with_lr := tf_multiply learning_rate_t update in
  let next_param := tf_subtract (value var) update_with_lr in
  Ok (set_slots self
        (<[("v", _var_key var) := next_v]>
           (<[("m", _var_key var) := next_m]> (_slots self))),
      assign var next_param).

Definition _resource_apply_dense (self : AdamWeightDecayOptimizer)
    (grad : T) (var : variable)
  : result (AdamWeightDecayOptimizer * variable) :=
  lr ← getattr (learning_rate_t self);
  let learning_rate_t := tf_cast lr (base_dtype (dtype var)) in
  b1 ← getattr (beta_1_t self);
  let beta_1_t := tf_cast b1 (base_dtype (dtype var)) in
  b2 ← getattr (beta_2_t self);
  let beta_2_t := tf_cast b2 (base_dtype (dtype var)) in
  eps ← getattr (epsilon_t self);
  let epsilon_t := tf_cast eps (base_dtype (dtype var)) in
  wd ← getattr (weight_decay_rate_t self);
  let weight_decay_rate_t := tf_cast wd (base_dtype (dtype var)) in
  let m := get_slot self var "m" in
  let v := get_slot self var "v" in
  m_value ← tensor_arg m;
  let next_m :=
    tf_add (tf_multiply beta_1_t m_value)
           (tf_multiply (tf_subtract (tf_constant 1) beta_1_t) grad) in
  v_value ← tensor_arg v;
  let next_v :=
    tf_add (tf_multiply beta_2_t v_value)
           (tf_multiply (tf_subtract (tf_constant 1) beta_2_t)
                        (tf_square grad)) in
  let update := tf_truediv next_m (tf_add (tf_sqrt next_v) epsilon_t) in
  decay ← _do_use_weight_decay self (name var);
  let update :=
    if decay : bool
    then tf_add update (tf_multiply weight_decay_rate_t (value var))
    else update in
  let update_with_lr := tf_multiply learning_rate_t update in
  let next_param := tf_subtract (value var) update_with_lr in
  Ok (set_slots self
        (<[("v", _var_key var) := next_v]>
           (<[("m", _var_key var) := next_m]> (_slots self))),
      assign var next_param).

End Optimizer.

(** [self._get_variable_name] as Python resolves it on an
    [AdamWeightDecayOptimizer]: the class body of optimizer.py binds
    [__init__], [_prepare], [_create_slots], [_apply_dense],
    [_resource_apply_dense] and [_do_use_weight_decay], [__init__] binds
    no attribute of that name, and the base class has no method of that
    name.  The lookup finds nothing. *)
Definition self_get_variable_name {T : Type}
  : option (@variable T -> result string) := None.

(** The training loop of the host, for one parameter: one call of
    [_resource_apply_dense] for each gradient of the stream, each on the
    optimizer and the variable the call before left. *)
Fixpoint train {T : Type} `{TensorOps T} (self : AdamWeightDecayOptimizer)
    (var : variable) (grads : list T)
  : result (AdamWeightDecayOptimizer * variable) :=
  match grads with
  | nil => Ok (self, var)
  | grad :: rest =>
      '(self', var') ← _resource_apply_dense self grad var;
      train self' var' rest
  end.

(** What one update produces: the next value of the parameter and the
    next accumulators. *)
Record step_result (T : Type) : Type := {
  next_var : T;
  next_m : T;
  next_v : T
}.

Arguments next_var {T} s.
Arguments next_m {T} s.
Arguments next_v {T} s.

(** The update rule in the words of the specification: from the
    hyperparameters, the decision [decay] of the exclusion policy, the
    accumulators [m] and [v], the gradient and the value of the
    parameter to the next value of the parameter and the next
    accumulators.  No power of [beta_1] or [beta_2] and no step count
    occur in it. *)
Definition spec_apply {T : Type} `{TensorOps T}
    (learning_rate weight_decay_rate beta_1 beta_2 epsilon : T)
    (decay : bool) (m v grad var_value : T) : step_result T :=
  let next_m :=
    tf_add (tf_multiply beta_1 m)
           (tf_multiply (tf_subtract (tf_constant 1) beta_1) grad) in
  let next_v :=
    tf_add (tf_multiply beta_2 v)
           (tf_multiply (tf_subtract (tf_constant 1) beta_2)
                        (tf_square grad)) in
  let update := tf_truediv next_m (tf_add (tf_sqrt next_v) epsilon) in
  let update :=
    if decay then tf_add update (tf_multiply weight_decay_rate var_value)
    else update in
  {| next_var := tf_subtract var_value (tf_multiply learning_rate update);
     next_m := next_m;
     next_v := next_v |}.

(** What the host does with a new optimizer before the first update:
    the slots of the variables are made, then the hyperparameters are
    turned into tensors. *)
Definition setup {T : Type} `{TensorOps T} (self : AdamWeightDecayOptimizer)
    (var_list : list variable) : result AdamWeightDecayOptimizer :=
  _prepare (_create_slots self var_list).

(** The weight-decay rate is the number zero. *)
Definition is_zero {T : Type} (x : pyval T) : Prop :=
  match x with
  | PyInt z => z = 0%Z
  | PyFloat q => (q == 0)%Q
  | _ => False
  end.

(** An optimizer as [__init__] leaves it, with the default name and the
    default [beta_1], [beta_2] and [epsilon] of the signature. *)
Definition default_optimizer {T : Type} (learning_rate weight_decay_rate
    : pyval T) (exclude_from_weight_decay : option (list string))
  : @AdamWeightDecayOptimizer T :=
  {| _use_locking := false;
     _name := "AdamWeightDecayOptimizer";
     _slots := ∅;
     learning_rate := learning_rate;
     weight_decay_rate := weight_decay_rate;
     beta_1 := PyFloat (9 # 10);
     beta_2 := PyFloat (999 # 1000);
     epsilon := PyFloat (1 # 1000000);
     exclude_from_weight_decay := exclude_from_weight_decay;
     learning_rate_t := None;
     weight_decay_rate_t := None;
     beta_1_t := None;
     beta_2_t := None;
     epsilon_t := None |}.

(** ** States of the optimizer and results of an update *)

Section States.

Context {T : Type} `{TensorOps T}.

Implicit Types (self : @AdamWeightDecayOptimizer T) (var : @variable T).

(** The optimizer has been prepared and holds both slots of [var]. *)
Record ready self var (lr wd b1 b2 eps m v : T) : Prop := {
  ready_lr : learning_rate_t self = Some lr;
  ready_wd : weight_decay_rate_t self = Some wd;
  ready_b1 : beta_1_t self = Some b1;
  ready_b2 : beta_2_t self = Some b2;
  ready_eps : epsilon_t self = Some eps;
  ready_m : get_slot self var "m" = Some m;
  ready_v : get_slot self var "v" = Some v
}.

(** The optimizer that an update leaves: the two slots of [var] are
    overwritten, every other attribute is the one of [self]. *)
Definition commit self var (r : step_result T)
  : @AdamWeightDecayOptimizer T * @variable T :=
  (set_slots self
     (<[("v", _var_key var) := next_v r]>
        (<[("m", _var_key var) := next_m r]> (_slots self))),
   assign var (next_var r)).

End States.

(** ** Exact arithmetic

    One element of a tensor as a real number, computed without rounding
    or overflow.  [None] is the result that is no real number: a
    division by zero, the square root of a negative number, and every
    operation on such a result.  The type and shape of a tensor play no
    part.  This is an idealisation of what the framework computes: it
    serves to run on examples what is proved over [TensorOps] for any
    arithmetic.  What depends on the arithmetic is stated over the
    floating-point numbers, which follow. *)

Definition real_div (x y : R) : option R :=
  if Req_dec_T y 0 then None else Some (x / y)%R.

Definition real_sqrt (x : R) : option R :=
  if Rlt_dec x 0 then None else Some (sqrt x).

Definition lift2 (f : R -> R -> R) (x y : option R) : option R :=
  match x, y with
  | Some a, Some b => Some (f a b)
  | _, _ => None
  end.

#[global] Instance real_tensor : TensorOps (option R) := {|
  tf_constant := fun q => Some (Q2R q);
  tf_int := fun z => Some (IZR z);
  tf_zeros := fun _ _ => Some 0%R;
  tf_cast := fun x _ => x;
  tf_multiply := lift2 Rmult;
  tf_add := lift2 Rplus;
  tf_subtract := lift2 Rminus;
  tf_truediv := fun x y =>
    match x, y with
    | Some a, Some b => real_div a b
    | _, _ => None
    end;
  tf_sqrt := fun x =>
    match x with
    | Some a => real_sqrt a
    | None => None
    end;
  tf_square := fun x => lift2 Rmult x x
|}.

(** A kernel of a network and an optimizer configured as the training
    scripts of the model configure it, set up for that kernel. *)
Definition kernel : @variable (option R) :=
  {| name := "layer1/kernel:0";
     dtype := float32_ref;
     shape := 2%nat :: 2%nat :: nil;
     value := Some 1%R |}.

Definition bert_optimizer (weight_decay_rate : Q)
  : result (@AdamWeightDecayOptimizer (option R)) :=
  self ← __init__ (PyFloat (1 # 100)) (PyFloat weight_decay_rate)
           (PyFloat (9 # 10)) (PyFloat (999 # 1000)) (PyFloat (1 # 1000000))
           (Some ("LayerNorm" :: "layer_norm" :: "bias" :: nil))
           "AdamWeightDecayOptimizer";
  setup self (kernel :: nil).

(** The optimizer that [bert_optimizer] returns, attribute by attribute. *)
Definition kernel_optimizer (weight_decay_rate : Q)
  : @AdamWeightDecayOptimizer (option R) :=
  {| _use_locking := false;
     _name := "AdamWeightDecayOptimizer";
     _slots := <[("v", "layer1/kernel:0") := Some 0%R]>
                 (<[("m", "layer1/kernel:0") := Some 0%R]> ∅);
     learning_rate := PyFloat (1 # 100);
     weight_decay_rate := PyFloat weight_decay_rate;
     beta_1 := PyFloat (9 # 10);
     beta_2 := PyFloat (999 # 1000);
     epsilon := PyFloat (1 # 1000000);
     exclude_from_weight_decay :=
       Some ("LayerNorm" :: "layer_norm" :: "bias" :: nil);
     learning_rate_t := Some (Some (Q2R (1 # 100)));
     weight_decay_rate_t := Some (Some (Q2R weight_decay_rate));
     beta_1_t := Some (Some (Q2R (9 # 10)));
     beta_2_t := Some (Some (Q2R (999 # 1000)));
     epsilon_t := Some (Some (Q2R (1 # 1000000))) |}.

(** ** Further states and predicates *)



(** The characters of [pattern] occur, in a row, somewhere in [subject]. *)
Definition occurs_in (pattern subject : string) : Prop :=
  exists pre post,
    list_ascii_of_string subject
    = pre ++ list_ascii_of_string pattern ++ post.

(** What [re.search] finds, with a pattern that does not compile
    counted as found nowhere. *)
Definition found (param_name pattern : string) : bool :=
  match re.search pattern param_name with
  | Ok b => b
  | Raise _ => false
  end.

(** A bias of the same layer, and the optimizer of [bert_optimizer] set
    up for the kernel and the bias. *)
Definition bias : @variable (option R) :=
  {| name := "layer1/bias:0";
     dtype := float32_ref;
     shape := 2%nat :: nil;
     value := Some (1 / 2)%R |}.

Definition layer_optimizer (weight_decay_rate : Q)
  : @AdamWeightDecayOptimizer (option R) :=
  set_slots (kernel_optimizer weight_decay_rate)
    (<[("v", "layer1/bias:0") := Some 0%R]>
       (<[("m", "layer1/bias:0") := Some 0%R]>
          (_slots (kernel_optimizer weight_decay_rate)))).

(** ** Floating-point arithmetic

    One element of a tensor as the framework computes it: a number of
    IEEE 754 binary32 or binary64, every operation rounded to nearest
    with ties to even, with overflow to an infinity, gradual underflow
    and NaN for an invalid operation.  The shape of a tensor plays no
    part. *)

(** Precision and exponent bound of the element types. *)
Definition prec_of (d : DType) : Z :=
  match base_dtype d with
  | float32 => 24
  | _ => 53
  end.

Definition emax_of (d : DType) : Z :=
  match base_dtype d with
  | float32 => 128
  | _ => 1024
  end.

Definition same_dtype (d d' : DType) : bool :=
  match base_dtype d, base_dtype d' with
  | float32, float32 | float64, float64 => true
  | _, _ => false
  end.

(** An integer as a ratio of mantissas, and the rational [q] rounded
    once to a format: the correctly rounded quotient of its numerator
    by its denominator. *)
Definition Z2SF (z : Z) : spec_float :=
  match z with
  | Z0 => S754_zero false
  | Zpos p => S754_finite false p 0
  | Zneg p => S754_finite true p 0
  end.

Definition round_Q (prec emax : Z) (q : Q) : spec_float :=
  SFdiv prec emax (Z2SF (Qnum q)) (Z2SF (Zpos (Qden q))).

(** Conversion of a number to a format: rounded when it does not fit. *)
Definition SFconvert (prec emax : Z) (x : spec_float) : spec_float :=
  match x with
  | S754_finite s m e => binary_round prec emax s m e
  | _ => x
  end.

(** The Python float written [q]: a binary64 number. *)
Definition py_float (q : Q) : spec_float := round_Q 53 1024 q.

(** A Python float and an integer as elements of type [d]. *)
Definition of_float (d : DType) (q : Q) : spec_float :=
  SFconvert (prec_of d) (emax_of d) (py_float q).

Definition of_int (d : DType) (z : Z) : spec_float :=
  binary_normalize (prec_of d) (emax_of d) z 0 false.

(** The values the tensor operations of the optimizer meet.  [Scalar]
    is a Python float or boolean that is no tensor yet: in an
    arithmetic operation it takes the element type of the tensor it is
    combined with, and [math_ops.cast] makes it a float32 tensor first,
    as [convert_to_tensor] does.  [Integer] is an integer tensor.
    [Invalid] stands for what the framework refuses to compute:
    arithmetic on an integer tensor, or on tensors of two element
    types. *)
Inductive ftensor : Type :=
| Scalar (q : Q)
| Integer (z : Z)
| Tensor (d : DType) (x : spec_float)
| Invalid.

Definition fcast (a : ftensor) (d : DType) : ftensor :=
  match a with
  | Scalar q =>
      Tensor (base_dtype d)
        (SFconvert (prec_of d) (emax_of d) (of_float float32 q))
  | Integer z => Tensor (base_dtype d) (of_int d z)
  | Tensor d' x =>
      Tensor (base_dtype d)
        (if same_dtype d' d then x
         else SFconvert (prec_of d) (emax_of d) x)
  | Invalid => Invalid
  end.

Definition fbinop (f : Z -> Z -> spec_float -> spec_float -> spec_float)
    (a b : ftensor) : ftensor :=
  match a, b with
  | Tensor d x, Tensor d' y =>
      if same_dtype d d'
      then Tensor (base_dtype d) (f (prec_of d) (emax_of d) x y)
      else Invalid
  | Scalar q, Tensor d y =>
      Tensor (base_dtype d) (f (prec_of d) (emax_of d) (of_float d q) y)
  | Tensor d x, Scalar q =>
      Tensor (base_dtype d) (f (prec_of d) (emax_of d) x (of_float d q))
  | _, _ => Invalid
  end.

Definition funop (f : Z -> Z -> spec_float -> spec_float) (a : ftensor)
  : ftensor :=
  match a with
  | Tensor d x => Tensor (base_dtype d) (f (prec_of d) (emax_of d) x)
  | Scalar q =>
      Tensor float32
        (f (prec_of float32) (emax_of float32) (of_float float32 q))
  | _ => Invalid
  end.

#[global] Instance ieee_tensor : TensorOps ftensor := {|
  tf_constant := Scalar;
  tf_int := Integer;
  tf_zeros := fun _ d => Tensor (base_dtype d) (S754_zero false);
  tf_cast := fcast;
  tf_multiply := fbinop SFmul;
  tf_add := fbinop SFadd;
  tf_subtract := fbinop SFsub;
  tf_truediv := fbinop SFdiv;
  tf_sqrt := funop SFsqrt;
  tf_square := funop (fun prec emax x => SFmul prec emax x x)
|}.

(** Classes of floating-point numbers. *)
Definition is_finite (x : spec_float) : bool :=
  match x with
  | S754_zero _ | S754_finite _ _ _ => true
  | _ => false
  end.

(** [+0] or a positive finite number. *)
Definition nonneg_finite (x : spec_float) : bool :=
  match x with
  | S754_zero false | S754_finite false _ _ => true
  | _ => false
  end.

Definition positive_finite (x : spec_float) : bool :=
  match x with
  | S754_finite false _ _ => true
  | _ => false
  end.

Definition is_nan (x : spec_float) : bool :=
  match x with
  | S754_nan => true
  | _ => false
  end.

(** [1.0 - x] as the update computes it on elements of type [d]. *)
Definition one_minus (d : DType) (x : spec_float) : spec_float :=
  SFsub (prec_of d) (emax_of d) (of_float d 1) x.

(** The tensor is a zero of element type [d], of either sign. *)
Definition zero_gradient (d : DType) (g : ftensor) : Prop :=
  exists s, g = Tensor d (S754_zero s).

(** The tensor is a number of element type [d], not NaN. *)
Definition number_gradient (d : DType) (g : ftensor) : Prop :=
  exists y, g = Tensor d y /\ is_nan y = false.

(** The kernel as a float32 variable holding 1.0, and the optimizer of
    the training scripts set up for it, with a weight-decay rate and an
    epsilon to choose. *)
Definition ieee_kernel : @variable ftensor :=
  {| name := "layer1/kernel:0";
     dtype := float32_ref;
     shape := 2%nat :: 2%nat :: nil;
     value := Tensor float32 (S754_finite false 8388608 (-23)) |}.

Definition ieee_optimizer (weight_decay_rate epsilon : Q)
  : result (@AdamWeightDecayOptimizer ftensor) :=
  self ← __init__ (PyFloat (1 # 100)) (PyFloat weight_decay_rate)
           (PyFloat (9 # 10)) (PyFloat (999 # 1000)) (PyFloat epsilon)
           (Some ("LayerNorm" :: "layer_norm" :: "bias" :: nil))
           "AdamWeightDecayOptimizer";
  setup self (ieee_kernel :: nil).

(** The optimizer that [ieee_optimizer] returns, attribute by
    attribute. *)
Definition ieee_kernel_optimizer (weight_decay_rate epsilon : Q)
  : @AdamWeightDecayOptimizer ftensor :=
  {| _use_locking := false;
     _name := "AdamWeightDecayOptimizer";
     _slots := <[("v", "layer1/kernel:0") := Tensor float32 (S754_zero false)]>
                 (<[("m", "layer1/kernel:0") :=
                      Tensor float32 (S754_zero false)]> ∅);
     learning_rate := PyFloat (1 # 100);
     weight_decay_rate := PyFloat weight_decay_rate;
     beta_1 := PyFloat (9 # 10);
     beta_2 := PyFloat (999 # 1000);
     epsilon := PyFloat epsilon;
     exclude_from_weight_decay :=
       Some ("LayerNorm" :: "layer_norm" :: "bias" :: nil);
     learning_rate_t := Some (Scalar (1 # 100));
     weight_decay_rate_t := Some (Scalar weight_decay_rate);
     beta_1_t := Some (Scalar (9 # 10));
     beta_2_t := Some (Scalar (999 # 1000));
     epsilon_t := Some (Scalar epsilon) |}.

(** Equality of element types, and the tensors of element type [d]
    whose element satisfies [P]. *)
Definition DType_eqb (d d' : DType) : bool :=
  match d, d' with
  | float32, float32 | float64, float64
  | float32_ref, float32_ref | float64_ref, float64_ref => true
  | _, _ => false
  end.

Definition element_is (d : DType) (P : spec_float -> bool) (t : ftensor)
  : bool :=
  match t with
  | Tensor d' x => DType_eqb d d' && P x
  | _ => false
  end.

Definition is_zero_float (x : spec_float) : bool :=
  match x with
  | S754_zero _ => true
  | _ => false
  end.








(** One step of weight decay alone on the value [t] of [var]: what an
    update with a quotient [next_m / (sqrt(next_v) + epsilon)] of zero
    leaves. *)
Definition decay_only (var : @variable ftensor) (lr wd : ftensor)
    (t : ftensor) : ftensor :=
  let dt := base_dtype (dtype var) in
  tf_subtract t
    (tf_multiply (tf_cast lr dt)
       (tf_add (tf_zeros (shape var) dt) (tf_multiply (tf_cast wd dt) t))).



(** The float32 zero and a gradient of [1e-30]. *)
Definition zero32 : ftensor := Tensor float32 (S754_zero false).


(** ** Searching for a pattern of ordinary characters *)

Section Search.

Implicit Types (p s : list ascii).

Lemma compile_ordinary p :
  forallb re.is_ordinary p = true ->
  re.compile_chars p = Ok (map re.Lit p).
Proof.
  induction p as [|c rest IH]; intros Hp; [reflexivity|].
  simpl in Hp. apply andb_prop in Hp as [Hc Hrest].
  unfold re.is_ordinary in Hc. apply negb_true_iff in Hc.
  repeat (apply orb_false_elim in Hc as [Hc ?]).
  simpl. rewrite Hc.
  repeat match goal with E : _ = false |- _ => rewrite E; clear E end.
  rewrite (IH Hrest). reflexivity.
Qed.

(** The literals match at the front of the subject when the subject
    starts with them. *)
Lemma match_here_literals p : forall at_start s,
  re.match_here (map re.Lit p) at_start s = true
  <-> exists post, s = p ++ post.
Proof.
  induction p as [|c rest IH]; intros at_start s; simpl.
  - split; [intros _; exists s; reflexivity|reflexivity].
  - destruct s as [|x s'].
    + split; [discriminate|intros [post Hpost]; discriminate Hpost].
    + rewrite andb_true_iff, Ascii.eqb_eq, IH. split.
      * intros [-> [post ->]]. exists post. reflexivity.
      * intros [post Hpost]. injection Hpost as -> ->. eauto.
Qed.

(** The search finds them when they occur somewhere in the subject. *)
Lemma search_from_literals p s : forall at_start,
  re.search_from (map re.Lit p) at_start s = true
  <-> exists pre post, s = pre ++ p ++ post.
Proof.
  induction s as [|x s' IH]; intros at_start; simpl;
    rewrite orb_true_iff, match_here_literals.
  - split.
    + intros [[post Hpost]|Hfalse]; [|discriminate].
      exists nil, post. exact Hpost.
    + intros (pre & post & Hs). left. destruct pre; [|discriminate Hs].
      exists post. exact Hs.
  - rewrite IH. split.
    + intros [[post Hpost]|(pre & post & Hs)].
      * exists nil, post. exact Hpost.
      * exists (x :: pre), post. rewrite Hs. reflexivity.
    + intros (pre & post & Hs). destruct pre as [|y pre].
      * left. exists post. exact Hs.
      * right. injection Hs as _ Hs. exists pre, post. exact Hs.
Qed.

(** [re.search] with a pattern of ordinary characters: the pattern is
    found exactly when it occurs somewhere in the subject. *)
Lemma search_ordinary (pattern subject : string) :
  forallb re.is_ordinary (list_ascii_of_string pattern) = true ->
  exists found,
    re.search pattern subject = Ok found
    /\ (found = true
        <-> exists pre post,
              list_ascii_of_string subject
              = pre ++ list_ascii_of_string pattern ++ post).
Proof.
  intros Hp. unfold re.search, re.compile.
  rewrite (compile_ordinary _ Hp). simpl.
  eexists. split; [reflexivity|]. apply search_from_literals.
Qed.

End Search.

(** ** The weight-decay exclusion policy *)

Section Policy.

Context {T : Type} `{TensorOps T}.

Implicit Types (self : @AdamWeightDecayOptimizer T) (param_name : string).

Lemma do_use_weight_decay_falsy self param_name :
  truthy (weight_decay_rate self) = Ok false ->
  _do_use_weight_decay self param_name = Ok false.
Proof.
  intros Hrate. unfold _do_use_weight_decay. rewrite Hrate. reflexivity.
Qed.

Lemma do_use_weight_decay_truthy self param_name :
  truthy (weight_decay_rate self) = Ok true ->
  _do_use_weight_decay self param_name =
    match exclude_from_weight_decay self with
    | Some patterns => no_pattern_found patterns param_name
    | None => Ok true
    end.
Proof.
  intros Hrate. unfold _do_use_weight_decay. rewrite Hrate. simpl.
  destruct (exclude_from_weight_decay self) as [[|r rest]|]; reflexivity.
Qed.

(** A pattern of the list that is found in the name ends the loop with
    [False], provided the patterns tried on the way compile. *)
Lemma no_pattern_found_hit patterns r param_name :
  Forall (fun p => is_ok (re.compile p) = true) patterns ->
  In r patterns ->
  re.search r param_name = Ok true ->
  no_pattern_found patterns param_name = Ok false.
Proof.
  intros Hok. induction Hok as [|p rest Hp _ IH]; intros Hin Hr.
  - destruct Hin.
  - simpl. destruct Hin as [->|Hin].
    + rewrite Hr. reflexivity.
    + unfold re.search at 1.
      destruct (re.compile p) as [ts|e]; [|discriminate Hp].
      simpl. destruct (re.search_from ts true _); [reflexivity|].
      apply IH; assumption.
Qed.

(** When no pattern of the list is found in the name the loop runs to
    its end. *)
Lemma no_pattern_found_miss patterns param_name :
  (forall r, In r patterns -> re.search r param_name = Ok false) ->
  no_pattern_found patterns param_name = Ok true.
Proof.
  induction patterns as [|p rest IH]; intros Hall; [reflexivity|].
  simpl. rewrite (Hall p (or_introl eq_refl)). simpl.
  apply IH. intros r Hr. apply Hall. right. exact Hr.
Qed.

End Policy.

(** ** The claims about the exclusion policy *)

Section PolicyClaims.

Context {T : Type} `{TensorOps T}.

Implicit Types (self : @AdamWeightDecayOptimizer T) (param_name : string).

(** C3: whatever the parameter name and the exclusion list, a
    weight-decay rate of zero makes [_do_use_weight_decay] return
    [False]. *)
Theorem zero_rate_uses_no_weight_decay self param_name :
  is_zero (weight_decay_rate self) ->
  _do_use_weight_decay self param_name = Ok false.
Proof.
  intros Hzero. apply do_use_weight_decay_falsy.
  destruct (weight_decay_rate self) as [ |b|z|q|t]; simpl in *;
    try contradiction.
  - subst z. reflexivity.
  - rewrite (proj2 (Qeq_bool_iff q 0) Hzero). reflexivity.
Qed.

(** C4: with a rate that is not zero the patterns are searched for in
    the name.  For ["layer1/bias"], an exclusion list that has the
    pattern ["bias"] (and patterns that compile) gives [False]; an
    exclusion list that has nothing but ["^bias$"] gives [True]. *)
Theorem exclusion_is_search_not_full_match self :
  truthy (weight_decay_rate self) = Ok true ->
  (forall patterns,
      exclude_from_weight_decay self = Some patterns ->
      Forall (fun p => is_ok (re.compile p) = true) patterns ->
      In "bias" patterns ->
      _do_use_weight_decay self "layer1/bias" = Ok false)
  /\ (forall patterns,
        exclude_from_weight_decay self = Some patterns ->
        (forall r, In r patterns -> r = "^bias$") ->
        _do_use_weight_decay self "layer1/bias" = Ok true).
Proof.
  intros Hrate. split; intros patterns Hex Hpat.
  - intros Hin. rewrite (do_use_weight_decay_truthy _ _ Hrate), Hex.
    apply (no_pattern_found_hit patterns "bias"); auto.
  - rewrite (do_use_weight_decay_truthy _ _ Hrate), Hex.
    apply no_pattern_found_miss. intros r Hr.
    rewrite (Hpat r Hr). reflexivity.
Qed.

(** C10: with a rate that is true as a Python value and an exclusion
    list that is [None] or empty, [_do_use_weight_decay] returns [True]
    for every name; with a rate that is false as a Python value it
    returns [False], whatever the exclusion list. *)
Theorem no_exclusions_decay_everything self param_name (rate : bool) :
  truthy (weight_decay_rate self) = Ok rate ->
  (rate = true ->
   exclude_from_weight_decay self = None
   \/ exclude_from_weight_decay self = Some nil) ->
  _do_use_weight_decay self param_name = Ok rate.
Proof.
  intros Hrate Hex. destruct rate.
  - rewrite (do_use_weight_decay_truthy _ _ Hrate).
    destruct (Hex eq_refl) as [-> | ->]; reflexivity.
  - apply do_use_weight_decay_falsy. exact Hrate.
Qed.

End PolicyClaims.

Lemma zero_rate_uses_no_weight_decay_witness :
  _do_use_weight_decay
    (default_optimizer (T := option R) (PyFloat (1 # 100)) (PyFloat 0)
       (Some ("LayerNorm" :: "layer_norm" :: "bias" :: nil)))
    "bert/encoder/layer_0/output/dense/kernel:0" = Ok false
  /\ _do_use_weight_decay
       (default_optimizer (T := option R) (PyFloat (1 # 100)) (PyInt 0)
          (Some ("(" :: nil)))
       "bert/encoder/layer_0/output/dense/kernel:0" = Ok false.
Proof.
  split; apply zero_rate_uses_no_weight_decay; simpl; reflexivity.
Defined.

Lemma exclusion_is_search_not_full_match_witness :
  _do_use_weight_decay
    (default_optimizer (T := option R) (PyFloat (1 # 100))
       (PyFloat (1 # 100))
       (Some ("LayerNorm" :: "layer_norm" :: "bias" :: nil)))
    "layer1/bias" = Ok false
  /\ _do_use_weight_decay
       (default_optimizer (T := option R) (PyFloat (1 # 100))
          (PyFloat (1 # 100))
          (Some ("^bias$" :: nil)))
       "layer1/bias" = Ok true.
Proof.
  split.
  - apply (proj1 (exclusion_is_search_not_full_match
                    (default_optimizer (PyFloat (1 # 100))
                       (PyFloat (1 # 100))
                       (Some ("LayerNorm" :: "layer_norm" :: "bias" :: nil)))
                    eq_refl)
             ("LayerNorm" :: "layer_norm" :: "bias" :: nil) eq_refl).
    + repeat constructor.
    + simpl. auto.
  - apply (proj2 (exclusion_is_search_not_full_match
                    (default_optimizer (PyFloat (1 # 100))
                       (PyFloat (1 # 100)) (Some ("^bias$" :: nil)))
                    eq_refl)
             ("^bias$" :: nil) eq_refl).
    intros r [<-|[]]. reflexivity.
Defined.

Lemma no_exclusions_decay_everything_witness :
  _do_use_weight_decay
    (default_optimizer (T := option R) (PyFloat (1 # 100))
       (PyFloat (1 # 100)) None)
    "layer1/bias" = Ok true
  /\ _do_use_weight_decay
       (default_optimizer (T := option R) (PyFloat (1 # 100))
          (PyFloat (1 # 100))
          (Some nil))
       "layer1/bias" = Ok true
  /\ _do_use_weight_decay
       (default_optimizer (T := option R) (PyFloat (1 # 100)) PyNone
          (Some ("bias" :: nil)))
       "layer1/kernel" = Ok false
  /\ _do_use_weight_decay
       (default_optimizer (T := option R) (PyFloat (1 # 100)) (PyBool false)
          (Some ("bias" :: nil)))
       "layer1/kernel" = Ok false.
Proof.
  split; [|split; [|split]].
  - apply no_exclusions_decay_everything; [reflexivity|].
    intros _. left. reflexivity.
  - apply no_exclusions_decay_everything; [reflexivity|].
    intros _. right. reflexivity.
  - apply no_exclusions_decay_everything; [reflexivity|discriminate].
  - apply no_exclusions_decay_everything; [reflexivity|discriminate].
Defined.

(** ** Accumulator slots *)

Section Slots.

Context {T : Type} `{TensorOps T}.

Implicit Types (self : @AdamWeightDecayOptimizer T) (var : @variable T).

Lemma set_slots_same self : set_slots self (_slots self) = self.
Proof. destruct self; reflexivity. Qed.

Lemma zeros_slot_name self var slot_name op_name :
  _name (_zeros_slot self var slot_name op_name) = _name self.
Proof.
  unfold _zeros_slot. destruct (_slots self !! _); reflexivity.
Qed.

(** A slot that exists is found and left as it is. *)
Lemma zeros_slot_registered self var slot_name op_name :
  is_Some (get_slot self var slot_name) ->
  _zeros_slot self var slot_name op_name = self.
Proof.
  unfold get_slot, _zeros_slot. intros [x ->]. reflexivity.
Qed.

(** [_zeros_slot] never changes or removes a slot that exists. *)
Lemma zeros_slot_keeps self var slot_name op_name key x :
  _slots self !! key = Some x ->
  _slots (_zeros_slot self var slot_name op_name) !! key = Some x.
Proof.
  intros Hkey. unfold _zeros_slot.
  destruct (_slots self !! (slot_name, _var_key var)) eqn:Hslot;
    [exact Hkey|].
  simpl. rewrite lookup_insert_ne; [exact Hkey|].
  intros <-. congruence.
Qed.

Lemma zeros_slot_makes self var slot_name op_name :
  is_Some (get_slot (_zeros_slot self var slot_name op_name) var slot_name).
Proof.
  unfold get_slot, _zeros_slot.
  destruct (_slots self !! (slot_name, _var_key var)) eqn:Hslot.
  - rewrite Hslot. eauto.
  - simpl. rewrite lookup_insert_eq. eauto.
Qed.

Lemma create_slots_cons self var var_list :
  _create_slots self (var :: var_list) =
  _create_slots
    (_zeros_slot (_zeros_slot self var "m" (_name self)) var "v"
       (_name (_zeros_slot self var "m" (_name self))))
    var_list.
Proof. reflexivity. Qed.

Lemma create_slots_keeps var_list : forall self key x,
  _slots self !! key = Some x ->
  _slots (_create_slots self var_list) !! key = Some x.
Proof.
  induction var_list as [|v rest IH]; intros self key x Hkey;
    [exact Hkey|].
  rewrite create_slots_cons. apply IH.
  do 2 apply zeros_slot_keeps. exact Hkey.
Qed.

(** After [_create_slots] every variable of the list has both slots. *)
Lemma create_slots_registers var_list : forall self var,
  In var var_list ->
  is_Some (get_slot (_create_slots self var_list) var "m")
  /\ is_Some (get_slot (_create_slots self var_list) var "v").
Proof.
  induction var_list as [|v rest IH]; intros self var Hin;
    [destruct Hin|].
  rewrite create_slots_cons. destruct Hin as [->|Hin]; [|auto].
  set (s1 := _zeros_slot self var "m" (_name self)).
  destruct (zeros_slot_makes self var "m" (_name self)) as [xm Hm].
  destruct (zeros_slot_makes s1 var "v" (_name s1)) as [xv Hv].
  fold s1 in Hm. unfold get_slot in *. split.
  - exists xm. apply create_slots_keeps, zeros_slot_keeps. exact Hm.
  - exists xv. apply create_slots_keeps. exact Hv.
Qed.

(** [_create_slots] does nothing when the variables have their slots. *)
Lemma create_slots_registered var_list : forall self,
  (forall var, In var var_list ->
     is_Some (get_slot self var "m") /\ is_Some (get_slot self var "v")) ->
  _create_slots self var_list = self.
Proof.
  induction var_list as [|v rest IH]; intros self Hall; [reflexivity|].
  rewrite create_slots_cons.
  destruct (Hall v (or_introl eq_refl)) as [Hm Hv].
  rewrite (zeros_slot_registered self v "m" _ Hm).
  rewrite (zeros_slot_registered self v "v" _ Hv).
  apply IH. intros var Hin. apply Hall. right. exact Hin.
Qed.

(** A slot that [_zeros_slot] makes holds zeros of the shape and type
    of the variable. *)
Lemma zeros_slot_fresh self var slot_name op_name :
  get_slot self var slot_name = None ->
  get_slot (_zeros_slot self var slot_name op_name) var slot_name
  = Some (tf_zeros (shape var) (base_dtype (dtype var))).
Proof.
  unfold get_slot, _zeros_slot. intros ->. simpl. apply lookup_insert_eq.
Qed.

(** On an optimizer without slots, as [__init__] leaves it,
    [_create_slots] gives the first variable of the list two
    accumulators of zeros. *)
Lemma create_slots_zero_initialized self var var_list :
  _slots self = ∅ ->
  let self' := _create_slots self (var :: var_list) in
  get_slot self' var "m"
  = Some (tf_zeros (shape var) (base_dtype (dtype var)))
  /\ get_slot self' var "v"
     = Some (tf_zeros (shape var) (base_dtype (dtype var))).
Proof.
  intros Hempty self'. subst self'. rewrite create_slots_cons.
  set (s1 := _zeros_slot self var "m" (_name self)).
  assert (Hm : get_slot s1 var "m"
               = Some (tf_zeros (shape var) (base_dtype (dtype var)))).
  { apply zeros_slot_fresh. unfold get_slot. rewrite Hempty.
    apply lookup_empty. }
  assert (Hv : get_slot s1 var "v" = None).
  { unfold s1, get_slot, _zeros_slot. rewrite Hempty, lookup_empty. simpl.
    rewrite lookup_insert_ne by discriminate. apply lookup_empty. }
  unfold get_slot in *. split; apply create_slots_keeps.
  - apply zeros_slot_keeps. exact Hm.
  - apply (zeros_slot_fresh s1 var "v" (_name s1) Hv).
Qed.

(** C7: a second [_create_slots] for the same variables changes
    nothing: the optimizer is the one the first call left, with the
    same slots and as many of them, so an update applied after it gives
    what it gives after one call. *)
Theorem create_slots_idempotent self var_list :
  let once := _create_slots self var_list in
  let twice := _create_slots once var_list in
  twice = once
  /\ size (_slots twice) = size (_slots once)
  /\ (forall lookup grad var,
        _resource_apply_dense twice grad var
        = _resource_apply_dense once grad var
        /\ _apply_dense lookup twice grad var
           = _apply_dense lookup once grad var).
Proof.
  intros once twice.
  assert (Heq : twice = once).
  { apply create_slots_registered. intros var Hin.
    apply create_slots_registers. exact Hin. }
  rewrite Heq. auto.
Qed.

End Slots.

(** ** The update rule *)

Section UpdateRule.

Context {T : Type} `{TensorOps T}.

Implicit Types (self : @AdamWeightDecayOptimizer T) (var : @variable T)
  (grad : T).

Lemma resource_apply_dense_ready self var grad lr wd b1 b2 eps m v decay :
  ready self var lr wd b1 b2 eps m v ->
  _do_use_weight_decay self (name var) = Ok decay ->
  _resource_apply_dense self grad var =
  Ok (commit self var
        (spec_apply (tf_cast lr (base_dtype (dtype var)))
           (tf_cast wd (base_dtype (dtype var)))
           (tf_cast b1 (base_dtype (dtype var)))
           (tf_cast b2 (base_dtype (dtype var)))
           (tf_cast eps (base_dtype (dtype var)))
           decay m v grad (value var))).
Proof.
  intros [Hlr Hwd Hb1 Hb2 Heps Hm Hv] Hdecay.
  unfold _resource_apply_dense.
  rewrite Hlr, Hwd, Hb1, Hb2, Heps, Hm, Hv. simpl.
  rewrite Hdecay. simpl. destruct decay; reflexivity.
Qed.

Lemma commit_slot_m self var r :
  get_slot (commit self var r).1 (commit self var r).2 "m"
  = Some (next_m r).
Proof.
  unfold get_slot, commit. simpl.
  rewrite lookup_insert_ne by discriminate.
  apply lookup_insert_eq.
Qed.

Lemma commit_slot_v self var r :
  get_slot (commit self var r).1 (commit self var r).2 "v"
  = Some (next_v r).
Proof. unfold get_slot, commit. simpl. apply lookup_insert_eq. Qed.



(** When the lookup of [_get_variable_name] finds nothing,
    [_apply_dense] cannot succeed. *)
Lemma apply_dense_no_method self grad var :
  is_ok (_apply_dense None self grad var) = false.
Proof.
  unfold _apply_dense.
  destruct (learning_rate_t self); [|reflexivity].
  destruct (beta_1_t self); [|reflexivity].
  destruct (beta_2_t self); [|reflexivity].
  destruct (epsilon_t self); [|reflexivity].
  destruct (weight_decay_rate_t self); [|reflexivity].
  destruct (get_slot self var "m"); [|reflexivity].
  destruct (get_slot self var "v"); reflexivity.
Qed.

Lemma apply_dense_no_method_ready self var grad lr wd b1 b2 eps m v :
  ready self var lr wd b1 b2 eps m v ->
  _apply_dense None self grad var = Raise AttributeError.
Proof.
  intros [Hlr Hwd Hb1 Hb2 Heps Hm Hv]. unfold _apply_dense.
  rewrite Hlr, Hwd, Hb1, Hb2, Heps, Hm, Hv. reflexivity.
Qed.

End UpdateRule.

(** ** The claims about the update rule and the construction *)

Section UpdateClaims.

Context {T : Type} `{TensorOps T}.

Implicit Types (self : @AdamWeightDecayOptimizer T) (var : @variable T)
  (grad : T).

Lemma is_zero_falsy (x : pyval T) : is_zero x -> truthy x = Ok false.
Proof.
  destruct x as [ |b|z|q|t]; simpl; try contradiction.
  - intros ->. reflexivity.
  - intros Hq. rewrite (proj2 (Qeq_bool_iff q 0) Hq). reflexivity.
Qed.


(** C6: with a weight-decay rate of zero, two updates that start from
    the same optimizer, so the same accumulators, with the same
    gradient and two values [x1], [x2] of the parameter subtract one
    and the same quantity [u] from the parameter and leave the same
    accumulators; they fail together when the optimizer is not ready. *)
Theorem update_independent_of_parameter_value self var grad (x1 x2 : T) :
  is_zero (weight_decay_rate self) ->
  (exists self' u,
      _resource_apply_dense self grad (assign var x1)
      = Ok (self', assign var (tf_subtract x1 u))
      /\ _resource_apply_dense self grad (assign var x2)
         = Ok (self', assign var (tf_subtract x2 u)))
  \/ (exists e,
        _resource_apply_dense self grad (assign var x1) = Raise e
        /\ _resource_apply_dense self grad (assign var x2) = Raise e).
Proof.
  intros Hzero.
  assert (Hdecay : forall name, _do_use_weight_decay self name = Ok false).
  { intros nm. apply do_use_weight_decay_falsy, is_zero_falsy, Hzero. }
  unfold _resource_apply_dense, get_slot, _var_key. simpl.
  rewrite Hdecay.
  destruct (learning_rate_t self); [|right; eexists; split; reflexivity].
  destruct (beta_1_t self); [|right; eexists; split; reflexivity].
  destruct (beta_2_t self); [|right; eexists; split; reflexivity].
  destruct (epsilon_t self); [|right; eexists; split; reflexivity].
  destruct (weight_decay_rate_t self);
    [|right; eexists; split; reflexivity].
  destruct (_slots self !! ("m", name var));
    [|right; eexists; split; reflexivity].
  destruct (_slots self !! ("v", name var));
    [|right; eexists; split; reflexivity].
  left. simpl. eexists. eexists. split; reflexivity.
Qed.

(** C2, as the code has it: [__init__] looks at none of the
    hyperparameters.  Whatever they are, construction under a name
    that is not empty succeeds and stores them as they were given. *)
Theorem construction_stores_hyperparameters
    (learning_rate weight_decay_rate beta_1 beta_2 epsilon : pyval T)
    (exclude_from_weight_decay : option (list string)) (name : string) :
  name <> "" ->
  __init__ learning_rate weight_decay_rate beta_1 beta_2 epsilon
    exclude_from_weight_decay name
  = Ok {| _use_locking := false;
          _name := name;
          _slots := ∅;
          learning_rate := learning_rate;
          weight_decay_rate := weight_decay_rate;
          beta_1 := beta_1;
          beta_2 := beta_2;
          epsilon := epsilon;
          exclude_from_weight_decay := exclude_from_weight_decay;
          learning_rate_t := None;
          weight_decay_rate_t := None;
          beta_1_t := None;
          beta_2_t := None;
          epsilon_t := None |}.
Proof.
  intros Hname. unfold __init__, Optimizer_init.
  destruct (String.eqb_spec name ""); [contradiction|reflexivity].
Qed.

(** The one error of a construction is the empty name. *)
Lemma construction_fails_only_on_empty_name
    (learning_rate weight_decay_rate beta_1 beta_2 epsilon : pyval T)
    (exclude_from_weight_decay : option (list string)) (name : string) e :
  __init__ learning_rate weight_decay_rate beta_1 beta_2 epsilon
    exclude_from_weight_decay name = Raise e ->
  name = "" /\ e = ValueError.
Proof.
  unfold __init__, Optimizer_init.
  destruct (String.eqb_spec name "") as [->|Hname]; simpl; [|discriminate].
  intros [= <-]. split; reflexivity.
Qed.

End UpdateClaims.

(** ** The update rule on an example *)

Lemma bert_optimizer_is_kernel_optimizer weight_decay_rate :
  bert_optimizer weight_decay_rate = Ok (kernel_optimizer weight_decay_rate).
Proof. reflexivity. Qed.

Lemma kernel_optimizer_ready weight_decay_rate x :
  ready (kernel_optimizer weight_decay_rate) (assign kernel x)
    (Some (Q2R (1 # 100))) (Some (Q2R weight_decay_rate))
    (Some (Q2R (9 # 10))) (Some (Q2R (999 # 1000)))
    (Some (Q2R (1 # 1000000))) (Some 0%R) (Some 0%R).
Proof. constructor; reflexivity. Defined.



Lemma update_independent_of_parameter_value_witness :
  is_zero (weight_decay_rate (kernel_optimizer 0))
  /\ exists self' u,
       _resource_apply_dense (kernel_optimizer 0) (Some (1 / 2)%R)
         (assign kernel (Some 1%R))
       = Ok (self', assign kernel (tf_subtract (Some 1%R) u))
       /\ _resource_apply_dense (kernel_optimizer 0) (Some (1 / 2)%R)
            (assign kernel (Some 2%R))
          = Ok (self', assign kernel (tf_subtract (Some 2%R) u)).
Proof.
  split; [reflexivity|].
  destruct (update_independent_of_parameter_value (kernel_optimizer 0)
              kernel (Some (1 / 2)%R) (Some 1%R) (Some 2%R) eq_refl)
    as [Hsame|(e & Hraise & _)]; [exact Hsame|].
  rewrite (resource_apply_dense_ready _ _ _ _ _ _ _ _ _ _ false
             (kernel_optimizer_ready 0 (Some 1%R)) eq_refl) in Hraise.
  discriminate Hraise.
Defined.

(** C8: the lookup of [_get_variable_name] finds nothing, so
    [_apply_dense] raises [AttributeError] on an optimizer and a
    variable on which [_resource_apply_dense] returns its update. *)
Theorem apply_dense_raises_where_resource_apply_dense_returns :
  bert_optimizer (1 # 100) = Ok (kernel_optimizer (1 # 100))
  /\ _apply_dense self_get_variable_name (kernel_optimizer (1 # 100))
       (Some (1 / 2)%R) kernel
     = Raise AttributeError
  /\ is_ok (_resource_apply_dense (kernel_optimizer (1 # 100))
              (Some (1 / 2)%R) kernel) = true.
Proof.
  split; [reflexivity|]. split.
  - apply (apply_dense_no_method_ready _ _ _ _ _ _ _ _ _ _
             (kernel_optimizer_ready (1 # 100) (Some 1%R))).
  - rewrite (resource_apply_dense_ready _ _ _ _ _ _ _ _ _ _ true
               (kernel_optimizer_ready (1 # 100) (Some 1%R)) eq_refl).
    reflexivity.
Qed.

(** C2, as the specification has it, fails: a construction with
    [beta_1 = 2], [beta_2 = 3/2] and [epsilon = -1] returns an optimizer. *)
Lemma construction_accepts_invalid_hyperparameters :
  ~ (0 < 2 < 1)%Q /\ ~ (0 < 3 # 2 < 1)%Q /\ (-1 <= 0)%Q
  /\ exists self : @AdamWeightDecayOptimizer (option R),
       __init__ (PyFloat (1 # 100)) (PyFloat 0) (PyFloat 2)
         (PyFloat (3 # 2)) (PyFloat (-1)) None "AdamWeightDecayOptimizer"
       = Ok self
       /\ beta_1 self = PyFloat 2
       /\ beta_2 self = PyFloat (3 # 2)
       /\ epsilon self = PyFloat (-1).
Proof.
  split; [intros [_ Hlt]; discriminate Hlt|].
  split; [intros [_ Hlt]; discriminate Hlt|].
  split; [discriminate|].
  eexists. split; [reflexivity|]. repeat split.
Qed.

Lemma construction_stores_hyperparameters_witness :
  "AdamWeightDecayOptimizer" <> ""
  /\ is_ok (__init__ (T := option R) (PyFloat (1 # 100)) (PyFloat 0)
              (PyFloat 2) (PyFloat (3 # 2)) (PyFloat (-1)) None
              "AdamWeightDecayOptimizer") = true.
Proof.
  split; [discriminate|].
  rewrite (construction_stores_hyperparameters (T := option R)
             (PyFloat (1 # 100)) (PyFloat 0) (PyFloat 2) (PyFloat (3 # 2))
             (PyFloat (-1)) None "AdamWeightDecayOptimizer");
    [reflexivity|discriminate].
Defined.

(** ** Runs of updates *)

Section Training.

Context {T : Type} `{TensorOps T}.

Implicit Types (self : @AdamWeightDecayOptimizer T) (var : @variable T)
  (grad : T).

(** An update leaves the optimizer ready for the next one. *)
Lemma commit_ready self var lr wd b1 b2 eps m v (r : step_result T) :
  ready self var lr wd b1 b2 eps m v ->
  ready (commit self var r).1 (commit self var r).2 lr wd b1 b2 eps
    (next_m r) (next_v r).
Proof.
  intros [Hlr Hwd Hb1 Hb2 Heps Hm Hv].
  constructor; try assumption.
  - apply commit_slot_m.
  - apply commit_slot_v.
Qed.

Lemma ready_assign self var lr wd b1 b2 eps m v x :
  ready self var lr wd b1 b2 eps m v ->
  ready self (assign var x) lr wd b1 b2 eps m v.
Proof. intros [Hlr Hwd Hb1 Hb2 Heps Hm Hv]. constructor; assumption. Qed.

(** The policy looks at no slot. *)
Lemma do_use_weight_decay_commit self var (r : step_result T) param_name :
  _do_use_weight_decay (commit self var r).1 param_name
  = _do_use_weight_decay self param_name.
Proof. reflexivity. Qed.

Lemma train_cons self var grad grads lr wd b1 b2 eps m v decay :
  ready self var lr wd b1 b2 eps m v ->
  _do_use_weight_decay self (name var) = Ok decay ->
  let r :=
    spec_apply (tf_cast lr (base_dtype (dtype var)))
      (tf_cast wd (base_dtype (dtype var)))
      (tf_cast b1 (base_dtype (dtype var)))
      (tf_cast b2 (base_dtype (dtype var)))
      (tf_cast eps (base_dtype (dtype var)))
      decay m v grad (value var) in
  train self var (grad :: grads)
  = train (commit self var r).1 (commit self var r).2 grads.
Proof.
  intros Hready Hdecay r. simpl.
  rewrite (resource_apply_dense_ready _ _ _ _ _ _ _ _ _ _ _ Hready Hdecay).
  reflexivity.
Qed.

(** Writing into the slots what they hold, and into the variable the
    value it has, changes nothing. *)
Lemma commit_same self var lr wd b1 b2 eps m v :
  ready self var lr wd b1 b2 eps m v ->
  commit self var {| next_var := value var; next_m := m; next_v := v |}
  = (self, var).
Proof.
  intros [_ _ _ _ _ Hm Hv]. unfold commit, get_slot in *. simpl.
  rewrite (insert_id (_slots self) _ _ Hm).
  rewrite (insert_id (_slots self) _ _ Hv).
  rewrite set_slots_same. destruct var; reflexivity.
Qed.

End Training.

(** ** More on the exclusion policy *)

Section PolicyOrder.

Context {T : Type} `{TensorOps T}.

Implicit Types (self : @AdamWeightDecayOptimizer T) (param_name : string).

Lemma search_compiles pattern param_name :
  is_ok (re.compile pattern) = true ->
  re.search pattern param_name = Ok (found param_name pattern).
Proof.
  unfold found, re.search. destruct (re.compile pattern); [|discriminate].
  reflexivity.
Qed.

(** With patterns that compile the loop computes a disjunction. *)
Lemma no_pattern_found_existsb patterns param_name :
  Forall (fun p => is_ok (re.compile p) = true) patterns ->
  no_pattern_found patterns param_name
  = Ok (negb (existsb (found param_name) patterns)).
Proof.
  induction 1 as [|p rest Hp _ IH]; [reflexivity|].
  simpl. rewrite (search_compiles p param_name Hp). simpl.
  destruct (found param_name p); [reflexivity|exact IH].
Qed.

Lemma found_true param_name pattern :
  found param_name pattern = true <-> re.search pattern param_name = Ok true.
Proof.
  unfold found. destruct (re.search pattern param_name) as [[|]|e];
    split; congruence.
Qed.

Lemma do_use_weight_decay_existsb self param_name patterns :
  truthy (weight_decay_rate self) = Ok true ->
  exclude_from_weight_decay self = Some patterns ->
  Forall (fun p => is_ok (re.compile p) = true) patterns ->
  _do_use_weight_decay self param_name
  = Ok (negb (existsb (found param_name) patterns)).
Proof.
  intros Hrate Hex Hok.
  rewrite (do_use_weight_decay_truthy _ _ Hrate), Hex.
  apply no_pattern_found_existsb, Hok.
Qed.

(** X1: with a rate that is true and patterns that compile, the
    parameter is excluded from weight decay exactly when some pattern
    of the list is found in its name. *)
Theorem excluded_iff_some_pattern_found self param_name patterns :
  truthy (weight_decay_rate self) = Ok true ->
  exclude_from_weight_decay self = Some patterns ->
  Forall (fun p => is_ok (re.compile p) = true) patterns ->
  exists decay,
    _do_use_weight_decay self param_name = Ok decay
    /\ (decay = false
        <-> exists r, In r patterns /\ re.search r param_name = Ok true).
Proof.
  intros Hrate Hex Hok. eexists.
  split; [apply (do_use_weight_decay_existsb _ _ _ Hrate Hex Hok)|].
  rewrite negb_false_iff, existsb_exists.
  split; intros (r & Hin & Hr); exists r; split; auto;
    apply found_true; exact Hr.
Qed.

Lemma existsb_permutation (f : string -> bool) (l1 l2 : list string) :
  Permutation l1 l2 -> existsb f l1 = existsb f l2.
Proof.
  intros Hperm. apply eq_true_iff_eq. rewrite !existsb_exists.
  split; intros (x & Hin & Hx); exists x; split; auto.
  - apply (Permutation_in _ Hperm Hin).
  - apply (Permutation_in _ (Permutation_sym Hperm) Hin).
Qed.

(** X2: two optimizers with the same rate whose exclusion lists hold
    the same patterns in another order, all of which compile, decide
    alike for every name. *)
Theorem pattern_order_does_not_matter self1 self2 param_name l1 l2 :
  weight_decay_rate self1 = weight_decay_rate self2 ->
  exclude_from_weight_decay self1 = Some l1 ->
  exclude_from_weight_decay self2 = Some l2 ->
  Permutation l1 l2 ->
  Forall (fun p => is_ok (re.compile p) = true) l1 ->
  _do_use_weight_decay self1 param_name
  = _do_use_weight_decay self2 param_name.
Proof.
  intros Hrate Hex1 Hex2 Hperm Hok1.
  assert (Hok2 : Forall (fun p => is_ok (re.compile p) = true) l2).
  { apply (Permutation_Forall Hperm Hok1). }
  destruct (truthy (weight_decay_rate self1)) as [[|]|e] eqn:Hr1.
  - assert (Hr2 : truthy (weight_decay_rate self2) = Ok true)
      by (rewrite <- Hrate; exact Hr1).
    rewrite (do_use_weight_decay_existsb _ _ _ Hr1 Hex1 Hok1).
    rewrite (do_use_weight_decay_existsb _ _ _ Hr2 Hex2 Hok2).
    rewrite (existsb_permutation _ _ _ Hperm). reflexivity.
  - rewrite (do_use_weight_decay_falsy _ _ Hr1).
    symmetry. apply do_use_weight_decay_falsy.
    rewrite <- Hrate. exact Hr1.
  - unfold _do_use_weight_decay. rewrite <- Hrate, Hr1. reflexivity.
Qed.

Lemma no_pattern_found_app pre rest param_name :
  (forall p, In p pre -> re.search p param_name = Ok false) ->
  no_pattern_found (pre ++ rest) param_name
  = no_pattern_found rest param_name.
Proof.
  induction pre as [|p pre IH]; intros Hpre; [reflexivity|].
  simpl. rewrite (Hpre p (or_introl eq_refl)). simpl.
  apply IH. intros q Hq. apply Hpre. right. exact Hq.
Qed.

(** X3: the loop stops at the first pattern that decides.  After
    patterns that are not found, a pattern that is found gives [False]
    whatever follows it in the list, and a pattern on which [re.search]
    raises [re.error] makes the method raise [re.error]. *)
Theorem first_decisive_pattern_decides self param_name pre r post :
  truthy (weight_decay_rate self) = Ok true ->
  exclude_from_weight_decay self = Some (pre ++ r :: post) ->
  (forall p, In p pre -> re.search p param_name = Ok false) ->
  (re.search r param_name = Ok true ->
   _do_use_weight_decay self param_name = Ok false)
  /\ (re.search r param_name = Raise ReError ->
      _do_use_weight_decay self param_name = Raise ReError).
Proof.
  intros Hrate Hex Hpre.
  rewrite (do_use_weight_decay_truthy _ _ Hrate), Hex.
  rewrite (no_pattern_found_app _ _ _ Hpre). simpl.
  split; intros ->; reflexivity.
Qed.

(** X4: with patterns of ordinary characters, as the lists in use are,
    the parameter is excluded exactly when one of the patterns occurs
    somewhere in its name. *)
Theorem ordinary_patterns_exclude_by_occurrence self param_name patterns :
  truthy (weight_decay_rate self) = Ok true ->
  exclude_from_weight_decay self = Some patterns ->
  Forall (fun p => forallb re.is_ordinary (list_ascii_of_string p) = true)
    patterns ->
  exists decay,
    _do_use_weight_decay self param_name = Ok decay
    /\ (decay = false
        <-> exists r, In r patterns /\ occurs_in r param_name).
Proof.
  intros Hrate Hex Hord.
  assert (Hok : Forall (fun p => is_ok (re.compile p) = true) patterns).
  { eapply Forall_impl; [exact Hord|]. intros p Hp. simpl in Hp.
    unfold re.compile. rewrite (compile_ordinary _ Hp). reflexivity. }
  eexists.
  split; [apply (do_use_weight_decay_existsb _ _ _ Hrate Hex Hok)|].
  rewrite negb_false_iff, existsb_exists.
  rewrite List.Forall_forall in Hord.
  split; intros (r & Hin & Hr); exists r; split; auto.
  - destruct (search_ordinary r param_name (Hord r Hin))
      as (b & Hsearch & Hiff).
    apply found_true in Hr. rewrite Hr in Hsearch.
    injection Hsearch as <-. apply Hiff. reflexivity.
  - destruct (search_ordinary r param_name (Hord r Hin))
      as (b & Hsearch & Hiff).
    apply found_true. rewrite Hsearch. f_equal. apply Hiff. exact Hr.
Qed.

End PolicyOrder.

Lemma excluded_iff_some_pattern_found_witness :
  exists decay,
    _do_use_weight_decay
      (default_optimizer (T := option R) (PyFloat (1 # 100))
         (PyFloat (1 # 100))
         (Some ("LayerNorm" :: "layer_norm" :: "bias" :: nil)))
      "layer1/bias:0" = Ok decay
    /\ (decay = false
        <-> exists r,
              In r ("LayerNorm" :: "layer_norm" :: "bias" :: nil)
              /\ re.search r "layer1/bias:0" = Ok true).
Proof.
  apply excluded_iff_some_pattern_found;
    [reflexivity|reflexivity|repeat constructor].
Defined.

Lemma pattern_order_does_not_matter_witness :
  _do_use_weight_decay
    (default_optimizer (T := option R) (PyFloat (1 # 100))
       (PyFloat (1 # 100)) (Some ("LayerNorm" :: "bias" :: nil)))
    "layer1/bias:0"
  = _do_use_weight_decay
      (default_optimizer (T := option R) (PyFloat (1 # 100))
         (PyFloat (1 # 100)) (Some ("bias" :: "LayerNorm" :: nil)))
      "layer1/bias:0".
Proof.
  apply (pattern_order_does_not_matter _ _ _
           ("LayerNorm" :: "bias" :: nil) ("bias" :: "LayerNorm" :: nil));
    [reflexivity|reflexivity|reflexivity|apply perm_swap|repeat constructor].
Defined.

Lemma first_decisive_pattern_decides_witness :
  _do_use_weight_decay
    (default_optimizer (T := option R) (PyFloat (1 # 100))
       (PyFloat (1 # 100)) (Some ("LayerNorm" :: "bias" :: "kernel\" :: nil)))
    "layer1/bias:0" = Ok false
  /\ _do_use_weight_decay
       (default_optimizer (T := option R) (PyFloat (1 # 100))
          (PyFloat (1 # 100))
          (Some ("LayerNorm" :: "kernel\" :: "bias" :: nil)))
       "layer1/bias:0" = Raise ReError.
Proof.
  assert (Hpre : forall p, In p ("LayerNorm" :: nil) ->
                           re.search p "layer1/bias:0" = Ok false).
  { intros p [<-|[]]. reflexivity. }
  split.
  - apply (proj1 (first_decisive_pattern_decides
                    (default_optimizer (PyFloat (1 # 100))
                       (PyFloat (1 # 100))
                       (Some ("LayerNorm" :: "bias" :: "kernel\" :: nil)))
                    "layer1/bias:0" ("LayerNorm" :: nil) "bias"
                    ("kernel\" :: nil) eq_refl eq_refl Hpre)).
    reflexivity.
  - apply (proj2 (first_decisive_pattern_decides
                    (default_optimizer (PyFloat (1 # 100))
                       (PyFloat (1 # 100))
                       (Some ("LayerNorm" :: "kernel\" :: "bias" :: nil)))
                    "layer1/bias:0" ("LayerNorm" :: nil) "kernel\"
                    ("bias" :: nil) eq_refl eq_refl Hpre)).
    reflexivity.
Defined.

Lemma ordinary_patterns_exclude_by_occurrence_witness :
  exists decay,
    _do_use_weight_decay
      (default_optimizer (T := option R) (PyFloat (1 # 100))
         (PyFloat (1 # 100))
         (Some ("LayerNorm" :: "layer_norm" :: "bias" :: nil)))
      "bert/encoder/layer_0/output/LayerNorm/beta:0" = Ok decay
    /\ (decay = false
        <-> exists r,
              In r ("LayerNorm" :: "layer_norm" :: "bias" :: nil)
              /\ occurs_in r "bert/encoder/layer_0/output/LayerNorm/beta:0").
Proof.
  apply ordinary_patterns_exclude_by_occurrence;
    [reflexivity|reflexivity|repeat constructor].
Defined.

(** ** More on the accumulator slots *)

Section SlotsMore.

Context {T : Type} `{TensorOps T}.

Implicit Types (self : @AdamWeightDecayOptimizer T) (var : @variable T).

Lemma set_slots_set_slots self (s1 s2 : gmap (string * string) T) :
  set_slots (set_slots self s1) s2 = set_slots self s2.
Proof. reflexivity. Qed.

Lemma zeros_slot_only_slots self var slot_name op_name :
  _zeros_slot self var slot_name op_name
  = set_slots self (_slots (_zeros_slot self var slot_name op_name)).
Proof.
  unfold _zeros_slot. destruct (_slots self !! _); simpl.
  - symmetry. apply set_slots_same.
  - reflexivity.
Qed.

(** [_create_slots] changes nothing but the slots. *)
Lemma create_slots_only_slots var_list : forall self,
  _create_slots self var_list
  = set_slots self (_slots (_create_slots self var_list)).
Proof.
  induction var_list as [|v rest IH]; intros self.
  - symmetry. apply set_slots_same.
  - rewrite create_slots_cons. rewrite IH at 1.
    rewrite (zeros_slot_only_slots _ v "v").
    rewrite (zeros_slot_only_slots self v "m") at 1.
    reflexivity.
Qed.

Lemma zeros_slot_other self var slot_name op_name key :
  key <> (slot_name, _var_key var) ->
  _slots (_zeros_slot self var slot_name op_name) !! key = _slots self !! key.
Proof.
  intros Hkey. unfold _zeros_slot. destruct (_slots self !! (_, _));
    [reflexivity|].
  simpl. apply lookup_insert_ne. congruence.
Qed.

Lemma ready_only_slots self var (lr wd b1 b2 eps m v : T)
    (slots : gmap (string * string) T) :
  ready self var lr wd b1 b2 eps m v ->
  slots !! ("m", _var_key var) = Some m ->
  slots !! ("v", _var_key var) = Some v ->
  ready (set_slots self slots) var lr wd b1 b2 eps m v.
Proof.
  intros [Hlr Hwd Hb1 Hb2 Heps _ _] Hm Hv. constructor; assumption.
Qed.

(** X5: [_create_slots] on an optimizer that holds accumulators for a
    variable, as in the middle of a training, leaves them as they are:
    the optimizer stays ready with the same [m] and [v], and the next
    update on the variable commits the same step result. *)
Theorem create_slots_keeps_accumulators
    self var_list var grad lr wd b1 b2 eps m v decay :
  ready self var lr wd b1 b2 eps m v ->
  _do_use_weight_decay self (name var) = Ok decay ->
  ready (_create_slots self var_list) var lr wd b1 b2 eps m v
  /\ exists r,
       _resource_apply_dense self grad var = Ok (commit self var r)
       /\ _resource_apply_dense (_create_slots self var_list) grad var
          = Ok (commit (_create_slots self var_list) var r).
Proof.
  intros Hready Hdecay.
  assert (Hready' :
            ready (_create_slots self var_list) var lr wd b1 b2 eps m v).
  { rewrite create_slots_only_slots.
    destruct Hready as [? ? ? ? ? Hm Hv] eqn:E. clear E.
    apply ready_only_slots; [constructor; assumption| |];
      apply create_slots_keeps; assumption. }
  split; [exact Hready'|]. eexists. split.
  - apply (resource_apply_dense_ready _ _ _ _ _ _ _ _ _ _ _ Hready Hdecay).
  - apply (resource_apply_dense_ready _ _ _ _ _ _ _ _ _ _ _ Hready').
    rewrite create_slots_only_slots. exact Hdecay.
Qed.

Lemma create_slots_other var_list : forall self key,
  (forall u, In u var_list ->
     key <> ("m", _var_key u) /\ key <> ("v", _var_key u)) ->
  _slots (_create_slots self var_list) !! key = _slots self !! key.
Proof.
  induction var_list as [|u rest IH]; intros self key Hkey; [reflexivity|].
  rewrite create_slots_cons.
  destruct (Hkey u (or_introl eq_refl)) as [Hm Hv].
  rewrite IH by (intros w Hw; apply Hkey; right; exact Hw).
  rewrite (zeros_slot_other _ u "v" _ key Hv).
  apply (zeros_slot_other _ u "m" _ key Hm).
Qed.

(** X6: a variable without slots gets two accumulators of zeros of its
    own shape and type, provided no variable earlier in the list goes by
    its name; variables later in the list change nothing in them. *)
Theorem create_slots_first_variable_wins self pre var post :
  get_slot self var "m" = None ->
  get_slot self var "v" = None ->
  (forall u, In u pre -> name u <> name var) ->
  let self' := _create_slots self (pre ++ var :: post) in
  get_slot self' var "m"
  = Some (tf_zeros (shape var) (base_dtype (dtype var)))
  /\ get_slot self' var "v"
     = Some (tf_zeros (shape var) (base_dtype (dtype var))).
Proof.
  intros Hm Hv Hpre self'. subst self'.
  unfold _create_slots. rewrite fold_left_app.
  fold (_create_slots self pre).
  set (s0 := _create_slots self pre).
  fold (_create_slots s0 (var :: post)).
  assert (Hm0 : get_slot s0 var "m" = None).
  { unfold get_slot, s0. rewrite create_slots_other; [exact Hm|].
    intros u Hu. pose proof (Hpre u Hu) as Hne. unfold _var_key.
    split; congruence. }
  assert (Hv0 : get_slot s0 var "v" = None).
  { unfold get_slot, s0. rewrite create_slots_other; [exact Hv|].
    intros u Hu. pose proof (Hpre u Hu) as Hne. unfold _var_key.
    split; congruence. }
  rewrite create_slots_cons.
  set (s1 := _zeros_slot s0 var "m" (_name s0)).
  assert (Hm1 : get_slot s1 var "m"
                = Some (tf_zeros (shape var) (base_dtype (dtype var)))).
  { apply zeros_slot_fresh. exact Hm0. }
  assert (Hv1 : get_slot s1 var "v" = None).
  { unfold get_slot, s1. rewrite zeros_slot_other by discriminate.
    exact Hv0. }
  unfold get_slot in *. split; apply create_slots_keeps.
  - apply zeros_slot_keeps. exact Hm1.
  - apply (zeros_slot_fresh s1 var "v" (_name s1) Hv1).
Qed.

(** X7: for variables of pairwise distinct names, none of which has a
    slot, [_create_slots] makes exactly two slots for each. *)
Theorem create_slots_two_per_variable var_list : forall self,
  List.NoDup (map name var_list) ->
  (forall u, In u var_list ->
     get_slot self u "m" = None /\ get_slot self u "v" = None) ->
  size (_slots (_create_slots self var_list))
  = (size (_slots self) + 2 * length var_list)%nat.
Proof.
  induction var_list as [|u rest IH]; intros self Hnodup Hnone.
  - simpl. lia.
  - simpl in Hnodup. apply List.NoDup_cons_iff in Hnodup as [Hu Hnodup].
    destruct (Hnone u (or_introl eq_refl)) as [Hm Hv].
    rewrite create_slots_cons.
    set (s1 := _zeros_slot self u "m" (_name self)).
    set (s2 := _zeros_slot s1 u "v" (_name s1)).
    assert (Hs1 : _slots s1
                  = <[("m", _var_key u) :=
                        tf_zeros (shape u) (base_dtype (dtype u))]>
                      (_slots self)).
    { unfold s1, _zeros_slot, get_slot in *. rewrite Hm. reflexivity. }
    assert (Hv1 : _slots s1 !! ("v", _var_key u) = None).
    { rewrite Hs1, lookup_insert_ne by discriminate. exact Hv. }
    assert (Hs2 : _slots s2
                  = <[("v", _var_key u) :=
                        tf_zeros (shape u) (base_dtype (dtype u))]>
                      (_slots s1)).
    { unfold s2, _zeros_slot. rewrite Hv1. reflexivity. }
    rewrite IH; [| exact Hnodup |].
    + rewrite Hs2, (map_size_insert_None _ _ _ Hv1), Hs1.
      rewrite (map_size_insert_None _ _ _ Hm). simpl length. lia.
    + intros w Hw. destruct (Hnone w (or_intror Hw)) as [Hwm Hwv].
      assert (Hne : name w <> name u).
      { intros Heq. apply Hu. rewrite <- Heq.
        apply (in_map name _ _ Hw). }
      unfold get_slot, _var_key in *.
      rewrite Hs2, Hs1.
      rewrite !lookup_insert_ne by congruence. split; assumption.
Qed.

End SlotsMore.

(** ** Orders of registration and preparation *)

Section Orders.

Context {T : Type} `{TensorOps T}.

Implicit Types (self : @AdamWeightDecayOptimizer T) (var : @variable T).

(** Making two different slots in one order or the other gives the same
    optimizer. *)
Lemma zeros_slot_commute self (a b : @variable T)
    (sa sb oa ob oa' ob' : string) :
  (sa, _var_key a) <> (sb, _var_key b) ->
  _zeros_slot (_zeros_slot self a sa oa) b sb ob
  = _zeros_slot (_zeros_slot self b sb ob') a sa oa'.
Proof.
  intros Hne. unfold _zeros_slot.
  destruct (_slots self !! (sa, _var_key a)) eqn:Ea;
    destruct (_slots self !! (sb, _var_key b)) eqn:Eb; simpl;
    rewrite ?Ea, ?Eb, ?lookup_insert_ne by congruence;
    rewrite ?Ea, ?Eb; simpl; try reflexivity.
  f_equal. apply insert_insert_ne. congruence.
Qed.

Lemma create_slots_swap self (x y : @variable T) rest :
  name x <> name y ->
  _create_slots self (y :: x :: rest) = _create_slots self (x :: y :: rest).
Proof.
  intros Hne. rewrite !create_slots_cons. f_equal.
  assert (Hmm : ("m", _var_key y) <> ("m", _var_key x))
    by (unfold _var_key; congruence).
  assert (Hmv : ("m", _var_key y) <> ("v", _var_key x)) by discriminate.
  assert (Hvm : ("v", _var_key y) <> ("m", _var_key x)) by discriminate.
  assert (Hvv : ("v", _var_key y) <> ("v", _var_key x))
    by (unfold _var_key; congruence).
  rewrite (zeros_slot_commute _ y x "v" "m" _ _ "" "" Hvm).
  rewrite (zeros_slot_commute _ y x "v" "v" _ _ "" "" Hvv).
  rewrite (zeros_slot_commute _ y x "m" "m" _ _ "" "" Hmm).
  rewrite (zeros_slot_commute _ y x "m" "v" _ _ "" "" Hmv).
  reflexivity.
Qed.

(** X8: for variables of pairwise distinct names the order of the list
    given to [_create_slots] does not matter. *)
Theorem create_slots_ignores_order (l1 l2 : list (@variable T)) :
  Permutation l1 l2 ->
  List.NoDup (map name l1) ->
  forall self, _create_slots self l1 = _create_slots self l2.
Proof.
  induction 1 as [|x l l' Hperm IH|x y l|l l' l'' Hp1 IH1 Hp2 IH2];
    intros Hnodup self.
  - reflexivity.
  - simpl in Hnodup. apply List.NoDup_cons_iff in Hnodup as [_ Hnodup].
    rewrite !create_slots_cons. apply IH. exact Hnodup.
  - apply create_slots_swap. simpl in Hnodup.
    apply List.NoDup_cons_iff in Hnodup as [Hy _].
    intros Heq. apply Hy. left. exact Heq.
  - rewrite (IH1 Hnodup). apply IH2.
    apply (Permutation_NoDup (Permutation_map name Hp1) Hnodup).
Qed.

Lemma prepare_zeros_slot self var slot_name op_name :
  _prepare (_zeros_slot self var slot_name op_name)
  = s ← _prepare self; Ok (_zeros_slot s var slot_name op_name).
Proof.
  unfold _prepare, _zeros_slot.
  destruct (_slots self !! (slot_name, _var_key var)) eqn:Eslot; simpl;
    destruct (convert_to_tensor (learning_rate self)); simpl; try reflexivity;
    destruct (convert_to_tensor (weight_decay_rate self)); simpl;
      try reflexivity;
    destruct (convert_to_tensor (beta_1 self)); simpl; try reflexivity;
    destruct (convert_to_tensor (beta_2 self)); simpl; try reflexivity;
    destruct (convert_to_tensor (epsilon self)); simpl; try reflexivity;
    rewrite Eslot; reflexivity.
Qed.

(** X9: preparing the optimizer and making the slots can be done in
    either order: [_prepare] after [_create_slots] returns what
    [_create_slots] after [_prepare] returns, and raises when [_prepare]
    alone raises. *)
Theorem prepare_and_create_slots_commute var_list : forall self,
  _prepare (_create_slots self var_list)
  = s ← _prepare self; Ok (_create_slots s var_list).
Proof.
  induction var_list as [|v rest IH]; intros self.
  - simpl. destruct (_prepare self); reflexivity.
  - rewrite create_slots_cons, IH, !prepare_zeros_slot.
    destruct (_prepare self); reflexivity.
Qed.




(** X11: [_prepare] can be run again: on the optimizer it returned it
    returns that optimizer, and it never touches a slot. *)
Theorem prepare_again_changes_nothing self self' :
  _prepare self = Ok self' ->
  _prepare self' = Ok self'
  /\ _slots self' = _slots self
  /\ weight_decay_rate self' = weight_decay_rate self
  /\ exclude_from_weight_decay self' = exclude_from_weight_decay self.
Proof.
  unfold _prepare.
  destruct (convert_to_tensor (learning_rate self)) eqn:E1; [|discriminate].
  destruct (convert_to_tensor (weight_decay_rate self)) eqn:E2;
    [|discriminate].
  destruct (convert_to_tensor (beta_1 self)) eqn:E3; [|discriminate].
  destruct (convert_to_tensor (beta_2 self)) eqn:E4; [|discriminate].
  destruct (convert_to_tensor (epsilon self)) eqn:E5; [|discriminate].
  simpl. intros [= <-]. simpl. rewrite E1, E2, E3, E4, E5. simpl.
  split; [reflexivity|]. split; [reflexivity|]. split; reflexivity.
Qed.

End Orders.

Lemma create_slots_keeps_accumulators_witness :
  ready (_create_slots (kernel_optimizer (1 # 100)) (bias :: kernel :: nil))
    kernel
    (Some (Q2R (1 # 100))) (Some (Q2R (1 # 100))) (Some (Q2R (9 # 10)))
    (Some (Q2R (999 # 1000))) (Some (Q2R (1 # 1000000)))
    (Some 0%R) (Some 0%R)
  /\ exists r,
       _resource_apply_dense (kernel_optimizer (1 # 100)) (Some 1%R) kernel
       = Ok (commit (kernel_optimizer (1 # 100)) kernel r)
       /\ _resource_apply_dense
            (_create_slots (kernel_optimizer (1 # 100))
               (bias :: kernel :: nil))
            (Some 1%R) kernel
          = Ok (commit
                  (_create_slots (kernel_optimizer (1 # 100))
                     (bias :: kernel :: nil))
                  kernel r).
Proof.
  apply (create_slots_keeps_accumulators (kernel_optimizer (1 # 100))
           (bias :: kernel :: nil) kernel (Some 1%R) _ _ _ _ _ _ _ true
           (kernel_optimizer_ready (1 # 100) (Some 1%R)) eq_refl).
Defined.

Lemma create_slots_first_variable_wins_witness :
  get_slot (_create_slots (kernel_optimizer 0) (kernel :: bias :: nil))
    bias "m" = Some (Some 0%R)
  /\ get_slot (_create_slots (kernel_optimizer 0) (kernel :: bias :: nil))
       bias "v" = Some (Some 0%R).
Proof.
  assert (Hpre : forall u, In u (kernel :: nil) -> name u <> name bias).
  { intros u [<-|[]]. discriminate. }
  exact (create_slots_first_variable_wins (kernel_optimizer 0)
           (kernel :: nil) bias nil eq_refl eq_refl Hpre).
Defined.

Lemma create_slots_two_per_variable_witness :
  size (_slots
          (_create_slots
             (default_optimizer (T := option R) (PyFloat (1 # 100))
                (PyFloat 0) None)
             (kernel :: bias :: nil)))
  = (size (_slots
             (default_optimizer (T := option R) (PyFloat (1 # 100))
                (PyFloat 0) None))
     + 2 * 2)%nat.
Proof.
  apply (create_slots_two_per_variable (kernel :: bias :: nil)).
  - constructor; [intros [Heq|[]]; discriminate Heq|].
    constructor; [intros []|constructor].
  - intros u Hu. split; reflexivity.
Defined.

Lemma create_slots_ignores_order_witness :
  _create_slots
    (default_optimizer (T := option R) (PyFloat (1 # 100)) (PyFloat 0) None)
    (kernel :: bias :: nil)
  = _create_slots
      (default_optimizer (T := option R) (PyFloat (1 # 100)) (PyFloat 0)
         None)
      (bias :: kernel :: nil).
Proof.
  apply create_slots_ignores_order; [apply perm_swap|].
  constructor; [intros [Heq|[]]; discriminate Heq|].
  constructor; [intros []|constructor].
Defined.

Lemma prepare_again_changes_nothing_witness :
  _prepare
    (set_slots
       (default_optimizer (PyFloat (1 # 100)) (PyFloat (1 # 100))
          (Some ("LayerNorm" :: "layer_norm" :: "bias" :: nil)))
       (_slots (kernel_optimizer (1 # 100))))
  = Ok (kernel_optimizer (1 # 100))
  /\ _prepare (kernel_optimizer (1 # 100)) = Ok (kernel_optimizer (1 # 100)).
Proof.
  assert (Hprepare :
            _prepare
              (set_slots
                 (default_optimizer (PyFloat (1 # 100)) (PyFloat (1 # 100))
                    (Some ("LayerNorm" :: "layer_norm" :: "bias" :: nil)))
                 (_slots (kernel_optimizer (1 # 100))))
            = Ok (kernel_optimizer (1 # 100))) by reflexivity.
  split; [exact Hprepare|].
  apply (prepare_again_changes_nothing _ _ Hprepare).
Defined.

(** ** When an update returns and what it touches *)

Section ApplyMore.

Context {T : Type} `{TensorOps T}.

Implicit Types (self : @AdamWeightDecayOptimizer T) (var : @variable T)
  (grad : T).

(** An update that returns was made on a ready optimizer, and what it
    returns is the committed step of the rule. *)
Lemma resource_apply_dense_inv self grad var self' var' :
  _resource_apply_dense self grad var = Ok (self', var') ->
  exists lr wd b1 b2 eps m v decay,
    ready self var lr wd b1 b2 eps m v
    /\ _do_use_weight_decay self (name var) = Ok decay
    /\ (self', var')
       = commit self var
           (spec_apply (tf_cast lr (base_dtype (dtype var)))
              (tf_cast wd (base_dtype (dtype var)))
              (tf_cast b1 (base_dtype (dtype var)))
              (tf_cast b2 (base_dtype (dtype var)))
              (tf_cast eps (base_dtype (dtype var)))
              decay m v grad (value var)).
Proof.
  intros Hrun.
  destruct (learning_rate_t self) as [lr|] eqn:Hlr;
    [|unfold _resource_apply_dense in Hrun; rewrite Hlr in Hrun;
      discriminate Hrun].
  destruct (beta_1_t self) as [b1|] eqn:Hb1;
    [|unfold _resource_apply_dense in Hrun; rewrite Hlr, Hb1 in Hrun;
      discriminate Hrun].
  destruct (beta_2_t self) as [b2|] eqn:Hb2;
    [|unfold _resource_apply_dense in Hrun; rewrite Hlr, Hb1, Hb2 in Hrun;
      discriminate Hrun].
  destruct (epsilon_t self) as [eps|] eqn:Heps;
    [|unfold _resource_apply_dense in Hrun;
      rewrite Hlr, Hb1, Hb2, Heps in Hrun; discriminate Hrun].
  destruct (weight_decay_rate_t self) as [wd|] eqn:Hwd;
    [|unfold _resource_apply_dense in Hrun;
      rewrite Hlr, Hb1, Hb2, Heps, Hwd in Hrun; discriminate Hrun].
  destruct (get_slot self var "m") as [m|] eqn:Hm;
    [|unfold _resource_apply_dense in Hrun;
      rewrite Hlr, Hb1, Hb2, Heps, Hwd, Hm in Hrun; discriminate Hrun].
  destruct (get_slot self var "v") as [v|] eqn:Hv;
    [|unfold _resource_apply_dense in Hrun;
      rewrite Hlr, Hb1, Hb2, Heps, Hwd, Hm, Hv in Hrun; discriminate Hrun].
  destruct (_do_use_weight_decay self (name var)) as [decay|e] eqn:Hdecay;
    [|unfold _resource_apply_dense in Hrun;
      rewrite Hlr, Hb1, Hb2, Heps, Hwd, Hm, Hv in Hrun; simpl in Hrun;
      rewrite Hdecay in Hrun; discriminate Hrun].
  assert (Hready : ready self var lr wd b1 b2 eps m v)
    by (constructor; assumption).
  rewrite (resource_apply_dense_ready _ _ grad _ _ _ _ _ _ _ _
             Hready Hdecay) in Hrun.
  exists lr, wd, b1, b2, eps, m, v, decay.
  split; [exact Hready|]. split; [reflexivity|].
  congruence.
Qed.

(** X12: on an optimizer that [_prepare] has not run on, whatever
    slots it has, both dense updates raise [AttributeError]. *)
Theorem apply_before_prepare_raises
    (learning_rate weight_decay_rate beta_1 beta_2 epsilon : pyval T)
    (exclude_from_weight_decay : option (list string)) (name : string)
    self var_list grad var lookup :
  __init__ learning_rate weight_decay_rate beta_1 beta_2 epsilon
    exclude_from_weight_decay name = Ok self ->
  _resource_apply_dense (_create_slots self var_list) grad var
  = Raise AttributeError
  /\ _apply_dense lookup (_create_slots self var_list) grad var
     = Raise AttributeError.
Proof.
  unfold __init__, Optimizer_init.
  destruct (String.eqb name ""); [discriminate|]. simpl. intros [= <-].
  rewrite create_slots_only_slots.
  split; reflexivity.
Qed.


(** X14: an update that returns overwrites in place.  The optimizer
    has the slots it had, no more and no fewer, and differs in nothing
    but their contents; the variable keeps its name, type and shape. *)
Theorem apply_overwrites_in_place self grad var self' var' :
  _resource_apply_dense self grad var = Ok (self', var') ->
  dom (_slots self') = dom (_slots self)
  /\ self' = set_slots self (_slots self')
  /\ name var' = name var /\ dtype var' = dtype var
  /\ shape var' = shape var.
Proof.
  intros Hrun.
  destruct (resource_apply_dense_inv _ _ _ _ _ Hrun)
    as (lr & wd & b1 & b2 & eps & m & v & decay & Hready & _ & Hpair).
  unfold commit in Hpair. injection Hpair as -> ->.
  destruct Hready as [_ _ _ _ _ Hm Hv]. unfold get_slot in Hm, Hv.
  split; [|repeat split].
  simpl. rewrite dom_insert_lookup_L.
  - apply dom_insert_lookup_L. eauto.
  - rewrite lookup_insert_ne by discriminate. eauto.
Qed.

End ApplyMore.

(** ** Updates of several variables and the part of weight decay *)

Section Independence.

Context {T : Type} `{TensorOps T}.

Implicit Types (self : @AdamWeightDecayOptimizer T) (var : @variable T)
  (grad : T).

Lemma commit_ready_other self var var2 (lr wd b1 b2 eps m v : T)
    (r : step_result T) :
  name var <> name var2 ->
  ready self var2 lr wd b1 b2 eps m v ->
  ready (commit self var r).1 var2 lr wd b1 b2 eps m v.
Proof.
  intros Hne Hready. pose proof Hready as [_ _ _ _ _ Hm Hv].
  unfold get_slot in Hm, Hv.
  apply ready_only_slots; [exact Hready| |];
    rewrite !lookup_insert_ne by (unfold _var_key; congruence); assumption.
Qed.

Lemma commit_commute self var1 var2 (r1 r2 : step_result T) :
  name var1 <> name var2 ->
  (commit (commit self var1 r1).1 var2 r2).1
  = (commit (commit self var2 r2).1 var1 r1).1.
Proof.
  intros Hne. unfold commit. simpl. f_equal.
  assert (Hkey : _var_key var1 <> _var_key var2) by exact Hne.
  rewrite (insert_insert_ne _ ("m", _var_key var2) ("v", _var_key var1))
    by discriminate.
  rewrite (insert_insert_ne _ ("m", _var_key var2) ("m", _var_key var1))
    by congruence.
  rewrite (insert_insert_ne _ ("v", _var_key var2) ("v", _var_key var1))
    by congruence.
  rewrite (insert_insert_ne _ ("v", _var_key var2) ("m", _var_key var1))
    by discriminate.
  reflexivity.
Qed.

(** X15: the updates of two variables of different names do not
    interfere.  Each returns after the other as it returns alone, with
    the same new value for its variable, and both orders leave the same
    optimizer. *)
Theorem updates_of_distinct_variables_commute
    self var1 var2 (g1 g2 lr wd b1 b2 eps m1 v1 m2 v2 : T) (d1 d2 : bool) :
  name var1 <> name var2 ->
  ready self var1 lr wd b1 b2 eps m1 v1 ->
  ready self var2 lr wd b1 b2 eps m2 v2 ->
  _do_use_weight_decay self (name var1) = Ok d1 ->
  _do_use_weight_decay self (name var2) = Ok d2 ->
  exists s1 s2 s12 var1' var2',
    _resource_apply_dense self g1 var1 = Ok (s1, var1')
    /\ _resource_apply_dense s1 g2 var2 = Ok (s12, var2')
    /\ _resource_apply_dense self g2 var2 = Ok (s2, var2')
    /\ _resource_apply_dense s2 g1 var1 = Ok (s12, var1').
Proof.
  intros Hne Hr1 Hr2 Hd1 Hd2.
  pose proof (resource_apply_dense_ready _ _ g1 _ _ _ _ _ _ _ _ Hr1 Hd1)
    as Hrun1.
  pose proof (resource_apply_dense_ready _ _ g2 _ _ _ _ _ _ _ _ Hr2 Hd2)
    as Hrun2.
  set (r1 := spec_apply _ _ _ _ _ d1 m1 v1 g1 (value var1)) in Hrun1.
  set (r2 := spec_apply _ _ _ _ _ d2 m2 v2 g2 (value var2)) in Hrun2.
  pose proof (resource_apply_dense_ready _ _ g2 _ _ _ _ _ _ _ _
                (commit_ready_other self var1 var2 _ _ _ _ _ _ _ r1 Hne Hr2)
                Hd2) as Hrun12.
  pose proof (resource_apply_dense_ready _ _ g1 _ _ _ _ _ _ _ _
                (commit_ready_other self var2 var1 _ _ _ _ _ _ _ r2
                   (not_eq_sym Hne) Hr1)
                Hd1) as Hrun21.
  fold r2 in Hrun12. fold r1 in Hrun21.
  exists (commit self var1 r1).1, (commit self var2 r2).1,
    (commit (commit self var1 r1).1 var2 r2).1,
    (commit self var1 r1).2, (commit self var2 r2).2.
  split; [rewrite Hrun1; reflexivity|].
  split; [rewrite Hrun12; reflexivity|].
  split; [rewrite Hrun2; reflexivity|].
  rewrite Hrun21, (commit_commute self var1 var2 r1 r2 Hne). reflexivity.
Qed.

(** X16: weight decay is decoupled from the accumulators.  Two runs on
    the same gradients that start with the same accumulators, [beta_1]
    and [beta_2] end with the same accumulators, whatever the learning
    rates, weight-decay rates, epsilons, exclusion decisions and values
    of the parameters are. *)
Theorem accumulators_ignore_weight_decay (grads : list T) :
  forall self1 self2 var1 var2 (lr1 lr2 wd1 wd2 b1 b2 eps1 eps2 m v : T)
         (d1 d2 : bool),
    ready self1 var1 lr1 wd1 b1 b2 eps1 m v ->
    ready self2 var2 lr2 wd2 b1 b2 eps2 m v ->
    base_dtype (dtype var1) = base_dtype (dtype var2) ->
    _do_use_weight_decay self1 (name var1) = Ok d1 ->
    _do_use_weight_decay self2 (name var2) = Ok d2 ->
    exists s1 s2 var1' var2' m' v',
      train self1 var1 grads = Ok (s1, var1')
      /\ train self2 var2 grads = Ok (s2, var2')
      /\ get_slot s1 var1 "m" = Some m' /\ get_slot s2 var2 "m" = Some m'
      /\ get_slot s1 var1 "v" = Some v' /\ get_slot s2 var2 "v" = Some v'.
Proof.
  induction grads as [|g rest IH];
    intros self1 self2 var1 var2 lr1 lr2 wd1 wd2 b1 b2 eps1 eps2 m v d1 d2
      Hr1 Hr2 Hdt Hd1 Hd2.
  - exists self1, self2, var1, var2, m, v. simpl.
    destruct Hr1 as [_ _ _ _ _ Hm1 Hv1]. destruct Hr2 as [_ _ _ _ _ Hm2 Hv2].
    repeat (split; [first [reflexivity|assumption]|]). assumption.
  - rewrite (train_cons _ _ g rest _ _ _ _ _ _ _ _ Hr1 Hd1).
    rewrite (train_cons _ _ g rest _ _ _ _ _ _ _ _ Hr2 Hd2).
    set (r1 := spec_apply _ _ _ _ _ d1 m v g (value var1)).
    set (r2 := spec_apply _ _ _ _ _ d2 m v g (value var2)).
    assert (Hm : next_m r2 = next_m r1)
      by (unfold r1, r2, spec_apply; simpl; rewrite Hdt; reflexivity).
    assert (Hv : next_v r2 = next_v r1)
      by (unfold r1, r2, spec_apply; simpl; rewrite Hdt; reflexivity).
    pose proof (commit_ready _ _ _ _ _ _ _ _ _ r1 Hr1) as Hr1'.
    pose proof (commit_ready _ _ _ _ _ _ _ _ _ r2 Hr2) as Hr2'.
    rewrite Hm, Hv in Hr2'.
    destruct (IH _ _ _ _ _ _ _ _ _ _ _ _ _ _ d1 d2 Hr1' Hr2' Hdt Hd1 Hd2)
      as (s1 & s2 & var1' & var2' & m' & v' & Ht1 & Ht2 & Hslots).
    exists s1, s2, var1', var2', m', v'.
    split; [exact Ht1|]. split; [exact Ht2|]. exact Hslots.
Qed.


End Independence.

Lemma layer_optimizer_ready_kernel weight_decay_rate :
  ready (layer_optimizer weight_decay_rate) kernel
    (Some (Q2R (1 # 100))) (Some (Q2R weight_decay_rate))
    (Some (Q2R (9 # 10))) (Some (Q2R (999 # 1000)))
    (Some (Q2R (1 # 1000000))) (Some 0%R) (Some 0%R).
Proof. constructor; reflexivity. Defined.

Lemma layer_optimizer_ready_bias weight_decay_rate :
  ready (layer_optimizer weight_decay_rate) bias
    (Some (Q2R (1 # 100))) (Some (Q2R weight_decay_rate))
    (Some (Q2R (9 # 10))) (Some (Q2R (999 # 1000)))
    (Some (Q2R (1 # 1000000))) (Some 0%R) (Some 0%R).
Proof. constructor; reflexivity. Defined.

Lemma apply_before_prepare_raises_witness :
  _resource_apply_dense
    (_create_slots
       (default_optimizer (PyFloat (1 # 100)) (PyFloat 0) None)
       (kernel :: nil))
    (Some 1%R) kernel
  = Raise AttributeError
  /\ _apply_dense self_get_variable_name
       (_create_slots
          (default_optimizer (PyFloat (1 # 100)) (PyFloat 0) None)
          (kernel :: nil))
       (Some 1%R) kernel
     = Raise AttributeError.
Proof.
  apply (apply_before_prepare_raises (PyFloat (1 # 100)) (PyFloat 0)
           (PyFloat (9 # 10)) (PyFloat (999 # 1000)) (PyFloat (1 # 1000000))
           None "AdamWeightDecayOptimizer").
  reflexivity.
Defined.



Lemma apply_overwrites_in_place_witness :
  exists self' var',
    _resource_apply_dense (layer_optimizer 0) (Some 1%R) kernel
    = Ok (self', var')
    /\ dom (_slots self') = dom (_slots (layer_optimizer 0))
    /\ name var' = name kernel.
Proof.
  pose proof (resource_apply_dense_ready _ _ (Some 1%R) _ _ _ _ _ _ _ false
                (layer_optimizer_ready_kernel 0) eq_refl) as Hrun.
  destruct (commit _ _ _) as [self' var'].
  exists self', var'. split; [exact Hrun|].
  destruct (apply_overwrites_in_place _ _ _ _ _ Hrun)
    as (Hdom & _ & Hname & _).
  split; assumption.
Defined.

Lemma updates_of_distinct_variables_commute_witness :
  name kernel <> name bias
  /\ exists s1 s2 s12 var1' var2',
       _resource_apply_dense (layer_optimizer (1 # 100)) (Some 1%R) kernel
       = Ok (s1, var1')
       /\ _resource_apply_dense s1 (Some 2%R) bias = Ok (s12, var2')
       /\ _resource_apply_dense (layer_optimizer (1 # 100)) (Some 2%R) bias
          = Ok (s2, var2')
       /\ _resource_apply_dense s2 (Some 1%R) kernel = Ok (s12, var1').
Proof.
  assert (Hne : name kernel <> name bias) by discriminate.
  split; [exact Hne|].
  apply (updates_of_distinct_variables_commute (layer_optimizer (1 # 100))
           kernel bias (Some 1%R) (Some 2%R) _ _ _ _ _ _ _ _ _ true false
           Hne (layer_optimizer_ready_kernel (1 # 100))
           (layer_optimizer_ready_bias (1 # 100)) eq_refl eq_refl).
Defined.

Lemma accumulators_ignore_weight_decay_witness :
  exists s1 s2 var1' var2' m' v',
    train (kernel_optimizer (1 # 100)) kernel (Some 1%R :: Some 2%R :: nil)
    = Ok (s1, var1')
    /\ train (kernel_optimizer 0) (assign kernel (Some 5%R))
         (Some 1%R :: Some 2%R :: nil)
       = Ok (s2, var2')
    /\ get_slot s1 kernel "m" = Some m'
    /\ get_slot s2 (assign kernel (Some 5%R)) "m" = Some m'
    /\ get_slot s1 kernel "v" = Some v'
    /\ get_slot s2 (assign kernel (Some 5%R)) "v" = Some v'.
Proof.
  apply (accumulators_ignore_weight_decay (Some 1%R :: Some 2%R :: nil)
           (kernel_optimizer (1 # 100)) (kernel_optimizer 0)
           kernel (assign kernel (Some 5%R))
           _ _ _ _ _ _ _ _ _ _ true false
           (kernel_optimizer_ready (1 # 100) (Some 1%R))
           (kernel_optimizer_ready 0 (Some 5%R)) eq_refl eq_refl eq_refl).
Defined.


(** ** Rounding to a floating-point format

    What rounding keeps of the sign of a number, and when it cannot
    give zero. *)

Section RoundingFacts.

Variables prec emax : Z.
Hypothesis prec_pos : (0 < prec)%Z.

Local Open Scope Z_scope.

























End RoundingFacts.

(** ** Zero gradients in floating-point arithmetic *)

Section ZeroGradient.

Variables prec emax : Z.

Lemma zero_first_moment x c g :
  nonneg_finite x = true -> is_finite c = true -> is_zero_float g = true ->
  SFadd prec emax (SFmul prec emax x (S754_zero false)) (SFmul prec emax c g)
  = S754_zero false.
Proof.
  destruct x as [[|]|[|]| |[|] mx ex]; try discriminate; intros _;
    destruct c as [[|]|[|]| |[|] mc ec]; try discriminate; intros _;
    destruct g as [[|]|[|]| |[|] mg eg]; try discriminate; intros _;
    reflexivity.
Qed.

Lemma zero_second_moment x c g :
  nonneg_finite x = true -> is_finite c = true -> is_zero_float g = true ->
  SFadd prec emax (SFmul prec emax x (S754_zero false))
    (SFmul prec emax c (SFmul prec emax g g))
  = S754_zero false.
Proof.
  destruct x as [[|]|[|]| |[|] mx ex]; try discriminate; intros _;
    destruct c as [[|]|[|]| |[|] mc ec]; try discriminate; intros _;
    destruct g as [[|]|[|]| |[|] mg eg]; try discriminate; intros _;
    reflexivity.
Qed.

Lemma zero_quotient xe :
  positive_finite xe = true ->
  SFdiv prec emax (S754_zero false)
    (SFadd prec emax (SFsqrt prec emax (S754_zero false)) xe)
  = S754_zero false.
Proof.
  destruct xe as [[|]|[|]| |[|] me ee]; try discriminate; reflexivity.
Qed.

Lemma zero_scaled xl y :
  nonneg_finite xl = true ->
  SFsub prec emax y (SFmul prec emax xl (S754_zero false)) = y.
Proof.
  destruct xl as [[|]|[|]| |[|] ml el]; try discriminate; intros _;
    destruct y as [[|]|[|]| |[|] my ey]; reflexivity.
Qed.

End ZeroGradient.

Lemma base_dtype_idem d : base_dtype (base_dtype d) = base_dtype d.
Proof. destruct d; reflexivity. Qed.

Lemma DType_eqb_eq d d' : DType_eqb d d' = true -> d = d'.
Proof. destruct d, d'; try discriminate; reflexivity. Qed.

Lemma element_is_inv d P t :
  element_is d P t = true -> exists x, t = Tensor d x /\ P x = true.
Proof.
  destruct t as [q|z|d' x|]; try discriminate. simpl.
  intros [Hd HP]%andb_prop. apply DType_eqb_eq in Hd. subst d'.
  exists x. split; [reflexivity|exact HP].
Qed.


Lemma fbinop_tensor f d x y :
  fbinop f (Tensor (base_dtype d) x) (Tensor (base_dtype d) y)
  = Tensor (base_dtype d) (f (prec_of d) (emax_of d) x y).
Proof. destruct d; reflexivity. Qed.

Lemma funop_tensor f d x :
  funop f (Tensor (base_dtype d) x)
  = Tensor (base_dtype d) (f (prec_of d) (emax_of d) x).
Proof. destruct d; reflexivity. Qed.

Lemma tf_zeros_base s d :
  tf_zeros s (base_dtype d) = Tensor (base_dtype d) (S754_zero false).
Proof. destruct d; reflexivity. Qed.


Section ZeroGradientRuns.

Implicit Types (self : @AdamWeightDecayOptimizer ftensor)
  (var : @variable ftensor) (lr wd eps g t : ftensor).

(** What a step with a zero gradient and zero accumulators does. *)
Lemma zero_gradient_step d lr wd (b1 b2 : ftensor) eps (decay : bool) g t :
  element_is (base_dtype d) nonneg_finite lr = true ->
  element_is (base_dtype d) nonneg_finite b1 = true ->
  element_is (base_dtype d) is_finite (tf_subtract (tf_constant 1) b1)
  = true ->
  element_is (base_dtype d) nonneg_finite b2 = true ->
  element_is (base_dtype d) is_finite (tf_subtract (tf_constant 1) b2)
  = true ->
  element_is (base_dtype d) positive_finite eps = true ->
  element_is (base_dtype d) is_zero_float g = true ->
  (decay = false -> exists y, t = Tensor (base_dtype d) y) ->
  spec_apply lr wd b1 b2 eps decay
    (Tensor (base_dtype d) (S754_zero false))
    (Tensor (base_dtype d) (S754_zero false)) g t
  = {| next_var :=
         if decay
         then tf_subtract t
                (tf_multiply lr
                   (tf_add (Tensor (base_dtype d) (S754_zero false))
                      (tf_multiply wd t)))
         else t;
       next_m := Tensor (base_dtype d) (S754_zero false);
       next_v := Tensor (base_dtype d) (S754_zero false) |}.
Proof.
  intros (xl & -> & Hxl)%element_is_inv (x1 & -> & Hx1)%element_is_inv
    (c1 & Hc1 & Hfc1)%element_is_inv (x2 & -> & Hx2)%element_is_inv
    (c2 & Hc2 & Hfc2)%element_is_inv (xe & -> & Hxe)%element_is_inv
    (z & -> & Hz)%element_is_inv Ht.
  unfold spec_apply. rewrite Hc1, Hc2.
  cbn [tf_add tf_multiply tf_truediv tf_sqrt tf_square tf_subtract
       ieee_tensor].
  rewrite !funop_tensor, !fbinop_tensor.
  rewrite (zero_second_moment _ _ _ _ _ Hx2 Hfc2 Hz).
  rewrite (zero_first_moment _ _ _ _ _ Hx1 Hfc1 Hz).
  rewrite !funop_tensor, !fbinop_tensor.
  rewrite (zero_quotient _ _ _ Hxe).
  destruct decay; [reflexivity|].
  destruct (Ht eq_refl) as [y ->].
  rewrite !fbinop_tensor, (zero_scaled _ _ _ _ Hxl). reflexivity.
Qed.

Lemma commit_zero_accumulators self var lr wd (b1 b2 : ftensor) eps
    (z : ftensor) t :
  ready self var lr wd b1 b2 eps z z ->
  commit self var {| next_var := t; next_m := z; next_v := z |}
  = (self, assign var t).
Proof.
  intros Hready.
  apply (commit_same self (assign var t) _ _ _ _ _ _ _
           (ready_assign _ _ _ _ _ _ _ _ _ t Hready)).
Qed.

Lemma assign_value var : assign var (value var) = var.
Proof. destruct var; reflexivity. Qed.

Lemma forallb_cons_true {A} (P : A -> bool) a l :
  forallb P (a :: l) = true -> P a = true /\ forallb P l = true.
Proof. simpl. apply andb_prop. Qed.

Lemma decay_only_eq var lr wd t :
  decay_only var lr wd t
  = tf_subtract t
      (tf_multiply (tf_cast lr (base_dtype (dtype var)))
         (tf_add (Tensor (base_dtype (dtype var)) (S754_zero false))
            (tf_multiply (tf_cast wd (base_dtype (dtype var))) t))).
Proof. unfold decay_only. rewrite tf_zeros_base. reflexivity. Qed.

Lemma train_zero_gradient self lr wd (b1 b2 : ftensor) eps (decay : bool)
    (gs : list ftensor) d (s : list nat) (n : string) :
  element_is (base_dtype d) nonneg_finite (tf_cast lr (base_dtype d))
  = true ->
  element_is (base_dtype d) nonneg_finite (tf_cast b1 (base_dtype d))
  = true ->
  element_is (base_dtype d) is_finite
    (tf_subtract (tf_constant 1) (tf_cast b1 (base_dtype d))) = true ->
  element_is (base_dtype d) nonneg_finite (tf_cast b2 (base_dtype d))
  = true ->
  element_is (base_dtype d) is_finite
    (tf_subtract (tf_constant 1) (tf_cast b2 (base_dtype d))) = true ->
  element_is (base_dtype d) positive_finite (tf_cast eps (base_dtype d))
  = true ->
  forallb (element_is (base_dtype d) is_zero_float) gs = true ->
  forall t,
    let var := {| name := n; dtype := d; shape := s; value := t |} in
    ready self var lr wd b1 b2 eps
      (Tensor (base_dtype d) (S754_zero false))
      (Tensor (base_dtype d) (S754_zero false)) ->
    _do_use_weight_decay self n = Ok decay ->
    (decay = false -> exists y, t = Tensor (base_dtype d) y) ->
    train self var gs
    = Ok (self,
          assign var
            (Nat.iter (length gs)
               (fun t => if decay then decay_only var lr wd t else t) t)).
Proof.
  intros Hlr Hb1 Hc1 Hb2 Hc2 Heps.
  induction gs as [|g gs IH]; intros Hgs t var Hready Hdecay Hvalue.
  - reflexivity.
  - apply forallb_cons_true in Hgs as [Hg Hgs].
    cbn [length]. rewrite Nat.iter_succ_r.
    rewrite (train_cons _ _ _ _ _ _ _ _ _ _ _ _ Hready Hdecay).
    cbv zeta. cbn [dtype value var].
    rewrite (zero_gradient_step _ _ _ _ _ _ decay g t
               Hlr Hb1 Hc1 Hb2 Hc2 Heps Hg Hvalue).
    rewrite (commit_zero_accumulators _ _ _ _ _ _ _ _ _ Hready).
    cbn [fst snd assign name dtype shape value var].
    pose proof (decay_only_eq var lr wd t) as Hstep.
    cbn [dtype var] in Hstep. rewrite <- Hstep.
    apply (IH Hgs).
    + exact (ready_assign _ _ _ _ _ _ _ _ _ _ Hready).
    + exact Hdecay.
    + intros ->. exact (Hvalue eq_refl).
Qed.

Lemma iter_id {A} (n : nat) (x : A) : Nat.iter n (fun y => y) x = x.
Proof. induction n as [|n IH]; [reflexivity|]. simpl. exact IH. Qed.

End ZeroGradientRuns.

(** ** The second moment in floating-point arithmetic *)

Section SecondMoment.

Implicit Types (self : @AdamWeightDecayOptimizer ftensor)
  (var : @variable ftensor) (lr wd eps g t m v : ftensor).







End SecondMoment.

(** C5: in the arithmetic of the floating-point numbers, from zero
    accumulators, any number of steps on gradients that are zero leaves
    the optimizer as it was, both accumulators zero, provided that, as
    elements of the type of the variable, the learning rate, [beta_1]
    and [beta_2] are [+0] or positive and finite, [1.0 - beta_1] and
    [1.0 - beta_2] are finite, and epsilon is positive and finite.
    When weight decay does not apply the variable is left as it was
    too; when it applies each step replaces the value [var] by
    [var - learning_rate * (0 + weight_decay_rate * var)], every
    operation rounded, and does nothing else. *)
Theorem zero_gradient_changes_nothing_but_decay
    (self : @AdamWeightDecayOptimizer ftensor) (var : @variable ftensor)
    (lr wd b1 b2 eps : ftensor) (y : spec_float) (decay : bool)
    (gs : list ftensor) :
  let dt := base_dtype (dtype var) in
  let zero := tf_zeros (shape var) dt in
  ready self var lr wd b1 b2 eps zero zero ->
  value var = Tensor dt y ->
  _do_use_weight_decay self (name var) = Ok decay ->
  element_is dt nonneg_finite (tf_cast lr dt) = true ->
  element_is dt nonneg_finite (tf_cast b1 dt) = true ->
  element_is dt is_finite (tf_subtract (tf_constant 1) (tf_cast b1 dt))
  = true ->
  element_is dt nonneg_finite (tf_cast b2 dt) = true ->
  element_is dt is_finite (tf_subtract (tf_constant 1) (tf_cast b2 dt))
  = true ->
  element_is dt positive_finite (tf_cast eps dt) = true ->
  forallb (element_is dt is_zero_float) gs = true ->
  (decay = false -> train self var gs = Ok (self, var))
  /\ (decay = true ->
      train self var gs
      = Ok (self,
            assign var
              (Nat.iter (length gs) (decay_only var lr wd) (value var)))).
Proof.
  intros dt zero Hready Hy Hdecay Hlr Hb1 Hc1 Hb2 Hc2 Heps Hgs.
  subst zero dt. rewrite tf_zeros_base in Hready.
  destruct var as [n d s t]. cbn [dtype shape name value] in *.
  pose proof (train_zero_gradient self lr wd b1 b2 eps decay gs d s n
                Hlr Hb1 Hc1 Hb2 Hc2 Heps Hgs t Hready Hdecay
                (fun _ => ex_intro _ y Hy)) as Hrun.
  cbv zeta in Hrun.
  split; intros ->; rewrite Hrun; [|reflexivity].
  rewrite iter_id. reflexivity.
Qed.


(** ** The float32 kernel

    The optimizer of the training scripts on the float32 kernel: what
    [__init__], [_create_slots] and [_prepare] leave, and one update
    with the numbers of the end-to-end example: from [m = v = 0], a
    value of 1.0 and a gradient of 0.5, the update leaves
    [m = 0.05], [v = 0.00025] and a value of [0.96838], each to the
    precision of float32. *)

Lemma ieee_optimizer_is_kernel_optimizer weight_decay_rate epsilon :
  ieee_optimizer weight_decay_rate epsilon
  = Ok (ieee_kernel_optimizer weight_decay_rate epsilon).
Proof. reflexivity. Qed.

Lemma ieee_kernel_optimizer_ready weight_decay_rate epsilon :
  ready (ieee_kernel_optimizer weight_decay_rate epsilon) ieee_kernel
    (Scalar (1 # 100)) (Scalar weight_decay_rate) (Scalar (9 # 10))
    (Scalar (999 # 1000)) (Scalar epsilon) zero32 zero32.
Proof. constructor; reflexivity. Defined.

(** The hyperparameters as float32 numbers: 0.1 is
    [13421773 * 2^-27], the Python float 0.1 is
    [7205759403792794 * 2^-56], and 1e-50 is zero. *)
Lemma of_float_examples :
  of_float float32 (1 # 10) = S754_finite false 13421773 (-27)
  /\ py_float (1 # 10) = S754_finite false 7205759403792794 (-56)
  /\ tf_cast (tf_constant (9 # 10)) float32
     = Tensor float32 (S754_finite false 15099494 (-24))
  /\ tf_cast (tf_constant (1 # 10 ^ 50)) float32 = zero32
  /\ tf_cast (tf_constant (1 # 10 ^ 50)) float64
     = Tensor float64 (S754_zero false)
  /\ tf_cast (tf_int 16777217) float32
     = Tensor float32 (S754_finite false 8388608 1).
Proof.
  split; [reflexivity|]. split; [reflexivity|]. split; [reflexivity|].
  split; [reflexivity|]. split; reflexivity.
Qed.

Lemma ieee_end_to_end_example :
  _resource_apply_dense (ieee_kernel_optimizer 0 (1 # 1000000))
    (Tensor float32 (S754_finite false 1 (-1))) ieee_kernel
  = Ok (set_slots (ieee_kernel_optimizer 0 (1 # 1000000))
          (<[("v", "layer1/kernel:0") :=
               Tensor float32 (S754_finite false 8589824 (-35))]>
             (<[("m", "layer1/kernel:0") :=
                  Tensor float32 (S754_finite false 13421776 (-28))]>
                (_slots (ieee_kernel_optimizer 0 (1 # 1000000))))),
        assign ieee_kernel
          (Tensor float32 (S754_finite false 16246704 (-24)))).
Proof. reflexivity. Qed.

(** Two steps on zero gradients, of either sign: without weight decay
    nothing changes; with a rate of 0.01 the value 1.0 becomes
    [16773860 * 2^-24], about 0.9998. *)
Lemma zero_gradient_changes_nothing_but_decay_witness :
  train (ieee_kernel_optimizer 0 (1 # 1000000)) ieee_kernel
    (zero32 :: Tensor float32 (S754_zero true) :: nil)
  = Ok (ieee_kernel_optimizer 0 (1 # 1000000), ieee_kernel)
  /\ train (ieee_kernel_optimizer (1 # 100) (1 # 1000000)) ieee_kernel
       (zero32 :: zero32 :: nil)
     = Ok (ieee_kernel_optimizer (1 # 100) (1 # 1000000),
           assign ieee_kernel
             (Tensor float32 (S754_finite false 16773860 (-24)))).
Proof.
  split.
  - refine (proj1 (zero_gradient_changes_nothing_but_decay
                     (ieee_kernel_optimizer 0 (1 # 1000000)) ieee_kernel
                     (Scalar (1 # 100)) (Scalar 0) (Scalar (9 # 10))
                     (Scalar (999 # 1000)) (Scalar (1 # 1000000))
                     (S754_finite false 8388608 (-23)) false
                     (zero32 :: Tensor float32 (S754_zero true) :: nil)
                     _ _ _ _ _ _ _ _ _ _) _); try reflexivity.
    apply ieee_kernel_optimizer_ready.
  - refine (proj2 (zero_gradient_changes_nothing_but_decay
                     (ieee_kernel_optimizer (1 # 100) (1 # 1000000))
                     ieee_kernel
                     (Scalar (1 # 100)) (Scalar (1 # 100)) (Scalar (9 # 10))
                     (Scalar (999 # 1000)) (Scalar (1 # 1000000))
                     (S754_finite false 8388608 (-23)) true
                     (zero32 :: zero32 :: nil)
                     _ _ _ _ _ _ _ _ _ _) _); try reflexivity.
    apply ieee_kernel_optimizer_ready.
Defined.

(** With an epsilon of 0.0, which the constructor accepts, and with an
    epsilon of 1e-50, which is positive and becomes 0.0 as a float32
    tensor, one step on a zero gradient from zero accumulators, without
    weight decay, divides 0 by 0: the accumulators stay zero and the
    value 1.0 of the kernel becomes NaN. *)
Lemma zero_gradient_step_gives_nan :
  ieee_optimizer 0 0 = Ok (ieee_kernel_optimizer 0 0)
  /\ get_slot (ieee_kernel_optimizer 0 0) ieee_kernel "m" = Some zero32
  /\ get_slot (ieee_kernel_optimizer 0 0) ieee_kernel "v" = Some zero32
  /\ _do_use_weight_decay (ieee_kernel_optimizer 0 0) (name ieee_kernel)
     = Ok false
  /\ value ieee_kernel = Tensor float32 (S754_finite false 8388608 (-23))
  /\ _resource_apply_dense (ieee_kernel_optimizer 0 0) zero32 ieee_kernel
     = Ok (ieee_kernel_optimizer 0 0,
           assign ieee_kernel (Tensor float32 S754_nan))
  /\ _resource_apply_dense (ieee_kernel_optimizer 0 (1 # 10 ^ 50)) zero32
       ieee_kernel
     = Ok (ieee_kernel_optimizer 0 (1 # 10 ^ 50),
           assign ieee_kernel (Tensor float32 S754_nan)).
Proof.
  split; [reflexivity|]. split; [reflexivity|]. split; [reflexivity|].
  split; [reflexivity|]. split; [reflexivity|]. split; reflexivity.
Qed.


